(** * WorldView-2 correction and classification pipeline (wv_classify.py)

    A shallow embedding of [src/wv_classify/wv_classify.py]: the scene
    geometry, the reflectance conversion, the land-cover sampling pass, the
    glint estimator, the relative-depth gate, and the control flow of
    [process_file] and [main].

    Conventions.
    - Python integers are [Z] (counters that only grow from 0 are [nat]).
    - Raster values and Python floats are IEEE-754 binary64 numbers
      ([PrimFloat]); every comparison with a not-a-number is false, as in
      Python.  The raster is stored by numpy as float32: the properties below
      are about control flow and about which operations are applied, and hold
      for the binary64 operations as they would for the float32 ones.
    - The date arithmetic is exact rational arithmetic ([Q]); the Earth-Sun
      distance, which needs a cosine, is stated over the reals.
    - A Python exception is a value of [exn]; a statement that can raise
      returns a [result].
    - The functions imported from the module [matlab_fns], which is not part
      of the sources at hand: [mldivide], [geotiffread], [geotiffwrite] and
      the trigonometry of the Rayleigh terms are parameters of the sections
      that use them; [cosd] and [rdivide] are given the definitions their
      names and the specification call for. *)

From Stdlib Require Import ZArith QArith Qround Reals Lra Lia.
From Stdlib Require Import List Ascii String Bool Floats.
Import ListNotations.

Set Warnings "-inexact-float".

(** ** Python results and exceptions *)

Module Py.

Inductive exn : Type :=
  | NameError (name : string)
  | TypeError (msg : string)
  | ValueError (msg : string)
  | IndexError
  | AssertionError.

Inductive result (A : Type) : Type :=
  | Ok (a : A)
  | Raise (e : exn).

Arguments Ok {A} a.
Arguments Raise {A} e.

Definition bind {A B : Type} (r : result A) (k : A -> result B) : result B :=
  match r with
  | Ok a => k a
  | Raise e => Raise e
  end.

Definition is_ok {A : Type} (r : result A) : bool :=
  match r with Ok _ => true | Raise _ => false end.

End Py.

Import Py.

(** ** 4.1 SceneGeometry (lines 154-178) *)

Module Geometry.

Local Open Scope Z_scope.

(** Lines 157-162: the year and month the Julian-date formula is fed. *)
Definition date_roll (aqyear aqmonth : Z) : Z * Z :=
  if (aqmonth =? 1) || (aqmonth =? 2)
  then (aqyear - 1, aqmonth + 12)
  else (aqyear, aqmonth).

(** Python's [int] on a float: truncation toward zero. *)
Definition py_int (q : Q) : Z :=
  if Qle_bool 0 q then Qfloor q else Qceiling q.

(** The fields [read_xml] takes from FIRSTLINETIME. *)
Record acquisition : Type := mkAcq {
  aqyear : Z;
  aqmonth : Z;
  aqday : Z;
  aqhour : Z;
  aqminute : Z;
  aqsecond : Z
}.

Local Open Scope Q_scope.

(** Line 165. *)
Definition UT (a : acquisition) : Q :=
  inject_Z (aqhour a) + (inject_Z (aqminute a) / 60)
  + (inject_Z (aqsecond a) / 3600).

(** Lines 166-172. *)
Definition julian_date (a : acquisition) : Q :=
  let (year, month) := date_roll (aqyear a) (aqmonth a) in
  let B1 := py_int (inject_Z year / 100) in
  let B2 := (2 - B1 + py_int (inject_Z B1 / 4))%Z in
  inject_Z (py_int (365.25 * inject_Z (year + 4716)))
  + inject_Z (py_int (30.6001 * inject_Z (month + 1)))
  + inject_Z (aqday a) + UT a / 24.0 + inject_Z B2 - 1524.5.

(** Lines 173-174. *)
Definition degs (a : acquisition) : Q :=
  let D := julian_date a - 2451545.0 in
  357.529 + 0.98560028 * D.

Local Open Scope R_scope.

(** Modelled from the spec: [cosd] of [matlab_fns], absent from the sources;
    the cosine of an angle given in degrees (section 4.1 speaks of the
    "harmonic correction of solar mean anomaly" and of "cosines"). *)
Definition cosd (x : R) : R := cos (x * PI / 180).

(** Line 176. *)
Definition ESd_of_degs (d : R) : R :=
  1.00014 - 0.01671 * cosd d - 0.00014 * cosd (2 * d).

Definition ESd (a : acquisition) : R := ESd_of_degs (Q2R (degs a)).

(** Line 178: [assert 0.983 < ESd and ESd < 1.017]. *)
Definition esd_check (e : R) : result unit :=
  if Rlt_dec 0.983 e
  then if Rlt_dec e 1.017 then Ok tt else Raise AssertionError
  else Raise AssertionError.

(** Lines 157-178 as one step of [process_file]. *)
Definition scene_geometry (a : acquisition) : result R :=
  bind (esd_check (ESd a)) (fun _ => Ok (ESd a)).

(** The sentence of the specification about the roll, as it is worded:
    December and January go to the prior year, every other month is left
    alone. *)
Definition rolls_december_and_january : Prop :=
  forall y m : Z, (1 <= m <= 12)%Z ->
    ((m = 12 \/ m = 1)%Z -> fst (date_roll y m) = (y - 1)%Z) /\
    (~ (m = 12 \/ m = 1)%Z -> date_roll y m = (y, m)).

(** A date no WorldView-2 scene can carry: the last year [datetime] holds. *)
Definition far_future : acquisition := mkAcq 9999 12 31 23 59 59.

(** The epoch J2000.0: noon of 1 January 2000. *)
Definition j2000 : acquisition := mkAcq 2000 1 1 12 0 0.

End Geometry.

(** ** Arrays *)

Module Arrays.

Local Open Scope float_scope.

(** The values of one pixel, one per band (the last axis of the image). *)
Definition pixel : Type := list float.

(** A raster of shape (rows, columns, bands). *)
Definition raster : Type := list (list pixel).

(** A raster of shape (rows, columns). *)
Definition plane : Type := list (list float).

(** [r[j, k, d]] for indices inside the array. *)
Definition at3 (r : raster) (j k d : nat) : option float :=
  match nth_error r j with
  | Some row =>
      match nth_error row k with
      | Some px => nth_error px d
      | None => None
      end
  | None => None
  end.

(** [p[j, k]] for indices inside the array. *)
Definition at2 (p : plane) (j k : nat) : option float :=
  match nth_error p j with
  | Some row => nth_error row k
  | None => None
  end.

(** [l[i] = x]; an index outside the list is an IndexError. *)
Fixpoint set_nth {A : Type} (l : list A) (i : nat) (x : A) : result (list A) :=
  match l, i with
  | [], _ => Raise IndexError
  | _ :: t, O => Ok (x :: t)
  | h :: t, S i' => bind (set_nth t i' x) (fun t' => Ok (h :: t'))
  end.

(** [p[j, k] = x]. *)
Definition set2 (p : plane) (j k : nat) (x : float) : result plane :=
  match nth_error p j with
  | Some row => bind (set_nth row k x) (fun row' => set_nth p j row')
  | None => Raise IndexError
  end.

(** [numpy.zeros((rows, cols))]. *)
Definition zeros (rows cols : nat) : plane := repeat (repeat 0 cols) rows.

(** [a[:, c]]: one column of a table. *)
Definition column (a : plane) (c : nat) : list float :=
  map (fun row => nth c row nan) a.

End Arrays.

Import Arrays.

(** ** 4.3 ReflectanceConverter (lines 299-316) *)

Module Converter.

Local Open Scope float_scope.

(** Line 316 at one pixel: [A[j, k, :] * C1 - C2], band by band. *)
Fixpoint affine_bands (px C1 C2 : list float) : pixel :=
  match px, C1, C2 with
  | a :: px', c1 :: C1', c2 :: C2' => (a * c1 - c2) :: affine_bands px' C1' C2'
  | _, _, _ => []
  end.

(** Line 316: [Rrs = A * C1 - C2], the coefficient vectors broadcast along
    the band axis of an image that has as many bands as they have entries
    (8: both are built by [for d in range(n_bands)]). *)
Definition reflectance (A : raster) (C1 C2 : list float) : raster :=
  map (map (fun px => affine_bands px C1 C2)) A.

(** The sentinel counts of the disabled no-data test (lines 322-352). *)
Definition is_sentinel (px : pixel) : bool :=
  forallb (fun a => (a =? 0) || (a =? 2047)) px.

End Converter.

(** ** 4.5 GlintEstimator (lines 545-575) *)

Module Glint.

Local Open Scope float_scope.

(** Line 545: [v > 0.25 * u] on two counters.  The product by 0.25 is exact
    in binary floating point for every count an image can give, and Python
    compares an integer with a float by value. *)
Definition exceeds_quarter (u v : nat) : bool :=
  negb (Qle_bool (inject_Z (Z.of_nat v)) (0.25 * inject_Z (Z.of_nat u))).

Section Estimator.

(** [matlab_fns.mldivide], applied to two columns of the water table. *)
Variable mldivide : list float -> list float -> float.

(** Lines 556-567: the slope computed at iteration [b]. *)
Definition slope_of (water : plane) (b : nat) : float :=
  if (b =? 0)%nat || (b =? 3)%nat || (b =? 5)%nat
  then mldivide (column water b) (column water 7)
  else mldivide (column water b) (column water 6).

(** Lines 555-568: the loop [for b in range(6)]; each iteration rebinds [b]
    and [slope1], and nothing else. *)
Definition slope_loop (water : plane) (b0 : nat) (slope0 : float)
  : nat * float :=
  fold_left (fun (_ : nat * float) (b : nat) => (b, slope_of water b))
            (seq 0 6) (b0, slope0).

(** Lines 554-569: [E_glint = [0]*6], the loop, and then, after the loop,
    [E_glint[b] = float(slope1)].  What [b] and [slope1] held before the
    loop is overwritten by its first iteration. *)
Definition E_glint_of (water : plane) : result (list float) :=
  let (b, slope1) := slope_loop water 0%nat 0 in
  set_nth (repeat 0 6) b slope1.

(** Lines 545-575: the vector when the scene is deglinted, nothing when it
    is treated as glint-free. *)
Definition glint_estimator (water : plane) (u v : nat)
  : result (option (list float)) :=
  if exceeds_quarter u v
  then bind (E_glint_of water) (fun E => Ok (Some E))
  else Ok None.

(** The vector the specification describes: one slope per band of the
    6-band subset. *)
Definition six_slopes (water : plane) : list float :=
  map (slope_of water) (seq 0 6).

End Estimator.

(** Modelled from the spec: [mldivide] of [matlab_fns], absent from the
    sources; for two columns, the slope of the no-intercept least-squares fit
    ("a single-variable linear regression (no intercept)", section 4.5). *)
Definition dot (a b : list float) : float :=
  fold_left (fun acc p => acc + fst p * snd p) (combine a b) 0.

Definition lstsq_slope (a b : list float) : float := dot a b / dot a a.

(** A water table of four rows: 8 band values and the glint flag. *)
Definition four_rows : plane :=
  [ [0.04; 0.05; 0.06; 0.05; 0.04; 0.03; 0.02; 0.01; 1];
    [0.05; 0.06; 0.07; 0.06; 0.05; 0.04; 0.03; 0.02; 1];
    [0.09; 0.10; 0.11; 0.10; 0.09; 0.08; 0.07; 0.06; 2];
    [0.12; 0.13; 0.14; 0.13; 0.12; 0.11; 0.10; 0.09; 2] ].

End Glint.

(** ** 4.6 Relative depth (lines 659-662, 699-705, 722-728, 936-943,
    1006-1013) *)

Module Bathymetry.

Local Open Scope float_scope.

(** The test [dp > 0 and dp < 2]. *)
Definition accepted (dp : float) : bool := (0 <? dp) && (dp <? 2).

(** The statement
    [if dp > 0 and dp < 2: Bathy[j, k] = dp  else: dp = 0]
    on a raster: the raster and the value of [dp] after it. *)
Definition record_depth (Bathy : plane) (j k : nat) (dp : float)
  : result (plane * float) :=
  if accepted dp
  then bind (set2 Bathy j k dp) (fun B' => Ok (B', dp))
  else Ok (Bathy, 0).

(** What a cell of the bathymetry raster may hold. *)
Definition depth_ok (x : float) : Prop :=
  x = 0 \/ ((0 <? x) = true /\ (x <? 2) = true).

(** The invariant of the bathymetry raster. *)
Definition cells_ok (B : plane) : Prop :=
  forall j k x, at2 B j k = Some x -> depth_ok x.

(** What [float(...)] of an array can bind a name to: a number, or, had
    the conversion been left out, the array. *)
Inductive value : Type :=
  | FloatValue (x : float)
  | ArrayValue (a : plane).




(** [f(i)] where [f] is a number or an array: neither can be called. *)
Definition call (f : value) (i : Z) : result float :=
  match f with
  | FloatValue _ => Raise (TypeError "'float' object is not callable")
  | ArrayValue _ =>
      Raise (TypeError "'numpy.ndarray' object is not callable")
  end.


Section Depth.

(** [log(1000*x)] with [math.log], a ValueError for an argument that is
    not positive; and the division of two Python floats, an exception for a
    zero divisor. *)
Variable log_1000 : float -> result float.
Variable divide : float -> float -> result float.




End Depth.

End Bathymetry.

(** ** 4.4 LandCoverSampler (lines 361-528) *)

Module Sampler.

Local Open Scope float_scope.

Local Notation "x >? y" := (PrimFloat.ltb y x) (at level 70, no associativity).

(** *** The guard of the pass *)

(** The two kinds of truth value the guard handles: Python's own [True] and
    [False], and the [numpy.bool_] values that numpy functions return. *)
Inductive pyobj : Type :=
  | PyBool (b : bool)
  | NpBool (b : bool).

(** [numpy.isnan(x)] on a scalar: a [numpy.bool_]. *)
Definition isnan (x : float) : pyobj := NpBool (PrimFloat.is_nan x).

(** [a is b]: identity of objects.  [True] and [False] are the two objects
    of [bool]; [numpy.True_] and [numpy.False_] are the two objects of
    [numpy.bool_], and none of them is [True] or [False]. *)
Definition py_is (a b : pyobj) : bool :=
  match a, b with
  | PyBool x, PyBool y => Bool.eqb x y
  | NpBool x, NpBool y => Bool.eqb x y
  | _, _ => false
  end.

(** [a == 0]: comparison by value. *)
Definition py_eq_zero (a : pyobj) : bool :=
  match a with
  | PyBool x => negb x
  | NpBool x => negb x
  end.

(** Line 382: [isnan(Rrs[j, k, 0]) is False]. *)
Definition sampler_guard (x : float) : bool := py_is (isnan x) (PyBool false).

(** Line 737, the guard of the classification loop:
    [isnan(Rrs[j, k, 0]) == 0]. *)
Definition classifier_guard (x : float) : bool := py_eq_zero (isnan x).

(** *** Values of a pixel *)

(** [Rrs[j, k, d]] at the pixel in hand, for a band index 0..7. *)
Definition band (px : pixel) (d : nat) : float := nth d px nan.

(** [px[lo:hi]]. *)
Definition slice (px : list float) (lo hi : nat) : list float :=
  firstn (hi - lo) (skipn lo px).

(** Python's [sum]: from the integer 0, left to right. *)
Definition py_sum (l : list float) : float := fold_left PrimFloat.add l 0.

(** [float(a)] on an array: its only element, and a TypeError for an array
    of any other size. *)
Definition py_float (a : list float) : result float :=
  match a with
  | [x] => Ok x
  | _ =>
      Raise (TypeError
               "only length-1 arrays can be converted to Python scalars")
  end.

(** Modelled from the spec: [rdivide] of [matlab_fns], absent from the
    sources; element-wise division ("divide selected bands by
    zeta + G·band", section 4.4). *)
Fixpoint rdivide (a b : list float) : list float :=
  match a, b with
  | x :: a', y :: b' => (x / y) :: rdivide a' b'
  | _, _ => []
  end.

(** *** The tests, as written *)

(** Lines 387-392. *)
Definition test_sand_developed (px : pixel) : bool :=
  ((band px 6 - band px 1) / (band px 6 + band px 1) <? 0.65)
  && (band px 4 >? band px 3)
  && (band px 3 >? band px 2).

(** Lines 398-402. *)
Definition test_vegetation (px : pixel) : bool :=
  ((band px 7 - band px 4) / (band px 7 + band px 4) >? 0.6)
  && (band px 6 >? band px 2).

(** Lines 404-408. *)
Definition shadow_filter (px : pixel) : bool :=
  (band px 6 - band px 1) / (band px 6 + band px 1) >? 0.20.

(** Lines 425-433. *)
Definition test_glint_free (px : pixel) : bool :=
  (band px 7 <? 0.11)
  && (band px 0 >? 0) && (band px 1 >? 0) && (band px 2 >? 0)
  && (band px 3 >? 0) && (band px 4 >? 0) && (band px 5 >? 0)
  && (band px 6 >? 0) && (band px 7 >? 0).

(** Lines 454-458 and 478-482. *)
Definition test_glint_A (px : pixel) : bool :=
  (band px 7 <? band px 6) && (band px 5 <? band px 6)
  && (band px 5 <? band px 4) && (band px 3 <? band px 4)
  && (band px 3 <? band px 2).

(** Lines 464-468 and 490-494. *)
Definition test_glint_B (px : pixel) : bool :=
  (band px 7 >? band px 6) && (band px 5 >? band px 6)
  && (band px 5 >? band px 4) && (band px 3 >? band px 4)
  && (band px 3 >? band px 2).

(** Lines 441-443, on the subsurface values. *)
Definition water_quality (water_rrs : list float) : bool :=
  (band water_rrs 3 >? band water_rrs 1)
  && (band water_rrs 3 <? 0.12)
  && (band water_rrs 4 <? band water_rrs 2).

(** *** State of the pass *)

(** The five branches of the chain of tests, in the order of the source. *)
Inductive branch : Type :=
  | SandDeveloped
  | Vegetation
  | GlintFreeWater
  | GlintedA
  | GlintedB.

Definition priority (br : branch) : nat :=
  match br with
  | SandDeveloped => 0
  | Vegetation => 1
  | GlintFreeWater => 2
  | GlintedA => 3
  | GlintedB => 4
  end.

Definition test_of (br : branch) : pixel -> bool :=
  match br with
  | SandDeveloped => test_sand_developed
  | Vegetation => test_vegetation
  | GlintFreeWater => test_glint_free
  | GlintedA => test_glint_A
  | GlintedB => test_glint_B
  end.

(** The variables of lines 366-379.  [entered] is not a variable of the
    program: it records, newest first, the branches whose body was entered. *)
Record state : Type := mkState {
  b : nat;
  t : nat;
  u : nat;
  y : nat;
  v : nat;
  sum_SD : list float;
  num_pix : nat;
  sum_veg : list float;
  sum_veg2 : list float;
  dead_veg : list float;
  sum_water_rrs : list float;
  water : plane;
  c_val : list float;
  entered : list branch
}.

(** Lines 366-379, for an image of [sz_ar] pixels. *)
Definition init (sz_ar : nat) : state :=
  {| b := 1; t := 1; u := 0; y := 0; v := 0;
     sum_SD := []; num_pix := 0; sum_veg := [0]; sum_veg2 := [];
     dead_veg := [0]; sum_water_rrs := []; water := zeros sz_ar 9;
     c_val := []; entered := [] |}.

Definition with_b (x : nat) (s : state) : state :=
  mkState x (t s) (u s) (y s) (v s) (sum_SD s) (num_pix s) (sum_veg s)
          (sum_veg2 s) (dead_veg s) (sum_water_rrs s) (water s) (c_val s)
          (entered s).

Definition with_t (x : nat) (s : state) : state :=
  mkState (b s) x (u s) (y s) (v s) (sum_SD s) (num_pix s) (sum_veg s)
          (sum_veg2 s) (dead_veg s) (sum_water_rrs s) (water s) (c_val s)
          (entered s).

Definition with_u (x : nat) (s : state) : state :=
  mkState (b s) (t s) x (y s) (v s) (sum_SD s) (num_pix s) (sum_veg s)
          (sum_veg2 s) (dead_veg s) (sum_water_rrs s) (water s) (c_val s)
          (entered s).

Definition with_v (x : nat) (s : state) : state :=
  mkState (b s) (t s) (u s) (y s) x (sum_SD s) (num_pix s) (sum_veg s)
          (sum_veg2 s) (dead_veg s) (sum_water_rrs s) (water s) (c_val s)
          (entered s).

Definition with_sum_SD (x : list float) (s : state) : state :=
  mkState (b s) (t s) (u s) (y s) (v s) x (num_pix s) (sum_veg s)
          (sum_veg2 s) (dead_veg s) (sum_water_rrs s) (water s) (c_val s)
          (entered s).

Definition with_num_pix (x : nat) (s : state) : state :=
  mkState (b s) (t s) (u s) (y s) (v s) (sum_SD s) x (sum_veg s)
          (sum_veg2 s) (dead_veg s) (sum_water_rrs s) (water s) (c_val s)
          (entered s).

Definition with_sum_veg (x : list float) (s : state) : state :=
  mkState (b s) (t s) (u s) (y s) (v s) (sum_SD s) (num_pix s) x
          (sum_veg2 s) (dead_veg s) (sum_water_rrs s) (water s) (c_val s)
          (entered s).

Definition with_sum_veg2 (x : list float) (s : state) : state :=
  mkState (b s) (t s) (u s) (y s) (v s) (sum_SD s) (num_pix s) (sum_veg s)
          x (dead_veg s) (sum_water_rrs s) (water s) (c_val s)
          (entered s).

Definition with_dead_veg (x : list float) (s : state) : state :=
  mkState (b s) (t s) (u s) (y s) (v s) (sum_SD s) (num_pix s) (sum_veg s)
          (sum_veg2 s) x (sum_water_rrs s) (water s) (c_val s)
          (entered s).

Definition with_sum_water_rrs (x : list float) (s : state) : state :=
  mkState (b s) (t s) (u s) (y s) (v s) (sum_SD s) (num_pix s) (sum_veg s)
          (sum_veg2 s) (dead_veg s) x (water s) (c_val s)
          (entered s).

Definition with_water (x : plane) (s : state) : state :=
  mkState (b s) (t s) (u s) (y s) (v s) (sum_SD s) (num_pix s) (sum_veg s)
          (sum_veg2 s) (dead_veg s) (sum_water_rrs s) x (c_val s)
          (entered s).

Definition with_c_val (x : list float) (s : state) : state :=
  mkState (b s) (t s) (u s) (y s) (v s) (sum_SD s) (num_pix s) (sum_veg s)
          (sum_veg2 s) (dead_veg s) (sum_water_rrs s) (water s) x
          (entered s).

Definition with_entered (x : list branch) (s : state) : state :=
  mkState (b s) (t s) (u s) (y s) (v s) (sum_SD s) (num_pix s) (sum_veg s)
          (sum_veg2 s) (dead_veg s) (sum_water_rrs s) (water s) (c_val s)
          x.

(** *** Statements *)

(** A statement: the exception it raised, if any, and the state it left. *)
Definition stmt : Type := state -> option exn * state.

Definition skip : stmt := fun s => (None, s).

Definition assign (f : state -> state) : stmt := fun s => (None, f s).

Definition then_ (c1 c2 : stmt) : stmt :=
  fun s =>
    match c1 s with
    | (None, s') => c2 s'
    | (Some e, s') => (Some e, s')
    end.

Local Notation "c1 ;; c2" := (then_ c1 c2) (at level 61, right associativity).

(** A statement that computes a new water table or raises. *)
Definition assign_water (f : state -> result plane) : stmt :=
  fun s =>
    match f s with
    | Ok w => (None, with_water w s)
    | Raise e => (Some e, s)
    end.

Fixpoint for_each {A : Type} (l : list A) (body : A -> stmt) : stmt :=
  match l with
  | [] => skip
  | a :: l' => body a ;; for_each l' body
  end.

(** The body of a branch is entered. *)
Definition enter (br : branch) : stmt :=
  assign (fun s => with_entered (br :: entered s) s).

(** [row[lo:hi] = x] for a scalar [x]. *)
Definition fill_slice (row : list float) (lo hi : nat) (x : float)
  : list float :=
  firstn lo row
  ++ repeat x (List.length (slice row lo hi))
  ++ skipn (lo + List.length (slice row lo hi)) row.

(** [water[u, 0:7] = float(Rrs[j, k, :])] (lines 435, 484, 498). *)
Definition store_bands (px : pixel) : stmt :=
  assign_water (fun s =>
    bind (py_float px) (fun x =>
    match nth_error (water s) (u s) with
    | Some row => set_nth (water s) (u s) (fill_slice row 0 7 x)
    | None => Raise IndexError
    end)).

(** [water[u, 8] = flag]. *)
Definition tag_row (flag : float) : stmt :=
  assign_water (fun s => set2 (water s) (u s) 8 flag).

(** *** The branches *)

(** Lines 394-395. *)
Definition body_sand_developed (px : pixel) : stmt :=
  assign (fun s => with_sum_SD (sum_SD s ++ [py_sum (slice px 5 7)]) s) ;;
  assign (fun s => with_b (b s + 1) s).

(** Lines 404-423. *)
Definition body_vegetation (px : pixel) : stmt :=
  if shadow_filter px then
    assign (fun s => with_sum_veg (sum_veg s ++ [py_sum (slice px 2 4)]) s) ;;
    assign (fun s => with_sum_veg2 (sum_veg2 s ++ [py_sum (slice px 6 7)]) s) ;;
    assign (fun s =>
      with_dead_veg
        (dead_veg s ++
         [((band px 6 - band px 3) / 3 + band px 3) - band px 4]) s) ;;
    assign (fun s => with_t (t s + 1) s)
  else skip.

(** Lines 436-446. *)
Definition quality_subtest (zeta G : float) (px : pixel) : stmt :=
  let water_rrs :=
    rdivide (slice px 0 5) (map (fun x => zeta + G * x) (slice px 0 5)) in
  if water_quality water_rrs
  then assign (fun s =>
         with_sum_water_rrs
           (sum_water_rrs s ++ [py_sum (slice water_rrs 2 4)]) s)
  else skip.

(** Lines 450-476: the row pointer advances, and then the row it points at
    is tagged. *)
Definition advance_then_tag (px : pixel) : stmt :=
  assign (fun s => with_u (u s + 1) s) ;;
  if test_glint_A px then
    assign (fun s => with_v (v s + 1) s) ;; tag_row 2
  else if test_glint_B px then
    assign (fun s => with_v (v s + 1) s) ;; tag_row 3
  else tag_row 1.

(** Lines 435-476. *)
Definition body_glint_free (zeta G : float) (px : pixel) : stmt :=
  store_bands px ;;
  quality_subtest zeta G px ;;
  advance_then_tag px.

(** Lines 484-488. *)
Definition body_glinted_A (px : pixel) : stmt :=
  store_bands px ;;
  tag_row 2 ;;
  assign (fun s => with_u (u s + 1) s) ;;
  assign (fun s => with_v (v s + 1) s).

(** Lines 497-500. *)
Definition body_glinted_B (px : pixel) : stmt :=
  tag_row 3 ;;
  store_bands px ;;
  assign (fun s => with_u (u s + 1) s) ;;
  assign (fun s => with_v (v s + 1) s).

(** Lines 386-500: the chain of tests on one pixel. *)
Definition sample_pixel (zeta G : float) (px : pixel) : stmt :=
  if test_sand_developed px then
    enter SandDeveloped ;; body_sand_developed px
  else if test_vegetation px then
    enter Vegetation ;; body_vegetation px
  else if test_glint_free px then
    enter GlintFreeWater ;; body_glint_free zeta G px
  else if test_glint_A px then
    enter GlintedA ;; body_glinted_A px
  else if test_glint_B px then
    enter GlintedB ;; body_glinted_B px
  else skip.

(** Lines 382-500: what the loops do at one pixel. *)
Definition visit (zeta G : float) (px : pixel) : stmt :=
  if sampler_guard (band px 0) then
    assign (fun s => with_num_pix (num_pix s + 1) s) ;;
    assign (fun s => with_c_val (c_val s ++ [band px 0]) s) ;;
    sample_pixel zeta G px
  else skip.

(** [Rrs[j, k, :]], for [j] and [k] below the sizes the loops run to. *)
Definition pixel_at (Rrs : raster) (j k : nat) : pixel :=
  nth k (nth j Rrs []) [].

(** Lines 380-525: the two loops. *)
Definition sampling_pass (zeta G : float) (Rrs : raster) (sz0 sz1 : nat)
  : stmt :=
  for_each (seq 0 sz0) (fun j =>
    for_each (seq 0 sz1) (fun k => visit zeta G (pixel_at Rrs j k))).

(** The count the specification describes: the pixels, among those the
    loops run over, whose band-0 value is not a not-a-number. *)
Definition count_valid (Rrs : raster) (sz0 sz1 : nat) : nat :=
  List.length
    (filter (fun jk => negb (PrimFloat.is_nan
                               (band (pixel_at Rrs (fst jk) (snd jk)) 0)))
            (list_prod (seq 0 sz0) (seq 0 sz1))).

(** The five branches. *)
Definition branches : list branch :=
  [SandDeveloped; Vegetation; GlintFreeWater; GlintedA; GlintedB].

(** Sample pixels. *)

(** Calm water: eight equal, small, positive values. *)
Definition calm_water : pixel :=
  [0.05; 0.05; 0.05; 0.05; 0.05; 0.05; 0.05; 0.05].

(** A pixel that passes the sand/developed test and the vegetation test. *)
Definition sand_and_vegetation : pixel :=
  [0.10; 0.10; 0.05; 0.06; 0.07; 0.20; 0.30; 0.40].

(** A statement that leaves the record of entered branches alone. *)
Definition keeps_entered (c : stmt) : Prop :=
  forall s, entered (snd (c s)) = entered s.

(** A valid pixel alone in a 1 x 1 image. *)
Definition one_pixel_image : raster := [[calm_water]].

End Sampler.

(** ** The control flow of [process_file] and [main] (lines 128-1130) *)

Module Pipeline.

Local Open Scope string_scope.

(** What a run shows to the outside. *)
Inductive value : Type :=
  | VInt (n : Z)
  | VObject.

Inductive event : Type :=
  | EvPrint (text : string) (args : list value)
  | EvDebugger
  | EvWrite (path : string).

(** A computation: the events it produced, in order, and how it ended. *)
Definition io (A : Type) : Type := list event * result A.

Definition ret {A : Type} (a : A) : io A := ([], Ok a).

Definition lift {A : Type} (r : result A) : io A := ([], r).

Definition emit (ev : event) : io unit := ([ev], Ok tt).

Definition iobind {A B : Type} (m : io A) (k : A -> io B) : io B :=
  match m with
  | (tr, Ok a) => let (tr', r) := k a in ((tr ++ tr')%list, r)
  | (tr, Raise e) => (tr, Raise e)
  end.

Local Notation "x <- m ;; k" := (iobind m (fun x => k))
  (at level 61, m at next level, right associativity).
Local Notation "m ;;; k" := (iobind m (fun _ => k))
  (at level 61, right associativity).

(** [print(text, ...)]: the text, its tabs left out, and the other
    arguments. *)
Definition print (text : string) (args : list value) : io unit :=
  emit (EvPrint text args).

(** A statement of the sampler run from a given state. *)
Definition run_stmt (c : Sampler.stmt) (s : Sampler.state) : io Sampler.state :=
  match c s with
  | (None, s') => ([], Ok s')
  | (Some e, _) => ([], Raise e)
  end.

(** *** Names *)

(** The names bound at module level (lines 21-74 and the [def]s). *)
Definition module_names : list string :=
  [ "sys"; "path"; "glob"; "pi"; "exp"; "log"; "numpy"; "zeros"; "mean";
    "isnan"; "std"; "ElementTree"; "datetime"; "square_strel"; "imtophat";
    "imbinarize"; "DT_Filter"; "geotiffread"; "geotiffwrite"; "cosd";
    "sind"; "tand"; "acosd"; "asind"; "mldivide"; "rdivide"; "OUTPUT_NaN";
    "BASE_DATATYPE"; "ebw"; "irr"; "cw"; "gamma"; "read_xml";
    "process_file"; "main"; "DATA_DIR"; "process_files_in_dir" ].

(** The names [process_file] has bound, as parameters or by assignment,
    when it reaches line 532, other than the two counters of lines
    527-528. *)
Definition names_before_527 : list string :=
  [ "X"; "Z"; "loc_out"; "loc"; "coor_sys"; "d_t"; "Rrs_write"; "fname";
    "id"; "A"; "R"; "szA"; "szB"; "aqmonth"; "aqyear"; "aqhour"; "aqminute";
    "aqsecond"; "sunaz"; "sunel"; "satel"; "sensaz"; "aqday"; "satview";
    "kf"; "cl_cov"; "year"; "month"; "UT"; "B1"; "B2"; "JD"; "D"; "degs";
    "ESd"; "inc_ang"; "TZ"; "TV"; "az"; "thetaplus"; "Pr"; "d"; "tau";
    "w_0"; "ray_rad"; "G"; "na"; "nw"; "inc_ang2"; "trans_aw"; "trans_wa";
    "pf1"; "pf2"; "zeta"; "sz"; "n_bands"; "C1"; "C2"; "Rrs"; "b"; "t"; "u";
    "y"; "v"; "sum_SD"; "num_pix"; "sum_veg"; "sum_veg2"; "dead_veg";
    "sum_water_rrs"; "sz_ar"; "water"; "c_val"; "j"; "k"; "water_rrs" ].

(** Lines 527-530: [n_water = u], [n_glInted = v], [import pdb]. *)
Definition locals_at_532 (s : Sampler.state) : list (string * value) :=
  ([ ("n_water", VInt (Z.of_nat (Sampler.u s)));
     ("n_glInted", VInt (Z.of_nat (Sampler.v s)));
     ("pdb", VObject) ]
   ++ map (fun x => (x, VObject)) names_before_527)%list.

(** Reading a name: the function's own names, then the module's; a name
    bound in neither (and that is not a built-in) is a NameError. *)
Definition read_name (locals : list (string * value)) (x : string)
  : result value :=
  match find (fun p => String.eqb (fst p) x) locals with
  | Some p => Ok (snd p)
  | None =>
      if existsb (String.eqb x) module_names
      then Ok VObject
      else Raise (NameError x)
  end.

(** *** Strings *)

(** [path.basename]: what follows the last slash. *)
Fixpoint basename_from (acc s : string) : string :=
  match s with
  | EmptyString => acc
  | String c s' =>
      if Ascii.eqb c "/"%char
      then basename_from s' s'
      else basename_from acc s'
  end.

Definition basename (s : string) : string := basename_from s s.

(** *** The stages *)

(** What [read_xml] returns (lines 122-125). *)
Record metadata : Type := mkMeta {
  NUMROWS : nat;
  NUMCOLUMNS : nat;
  acq : Geometry.acquisition;
  sunaz : float;
  sunel : float;
  satel : float;
  sensaz : float;
  satview : float;
  kf : list float;
  cl_cov : float
}.

(** What the stages after the conversion work on. *)
Record scene (georef : Type) : Type := mkScene {
  Rrs : raster;
  R : georef;
  sz0 : nat;
  sz1 : nat;
  zeta : float
}.

Arguments mkScene {georef}.
Arguments Rrs {georef}.
Arguments R {georef}.
Arguments sz0 {georef}.
Arguments sz1 {georef}.
Arguments zeta {georef}.

(** Line 248. *)
Definition G : float := 1.56%float.

Section Collaborators.

(** The georeference descriptor of the raster I/O collaborator. *)
Variable georef : Type.

(** [matlab_fns.geotiffread] on the path of the image. *)
Variable geotiffread : string -> result (raster * georef).

(** [read_xml] on the path of the metadata document (lines 76-125): the
    document is parsed by [ElementTree]; a malformed one is an exception. *)
Variable read_xml : string -> result metadata.

(** Lines 179-267, which rest on the trigonometry of [matlab_fns]: the
    transmittances, the Rayleigh terms and the constant zeta. *)
Variable rayleigh_terms : Type.
Variable rayleigh : metadata -> result rayleigh_terms.
Variable zeta_of : rayleigh_terms -> float.

(** Lines 299-312: the coefficient vectors C1 and C2. *)
Variable coefficients :
  metadata -> rayleigh_terms -> result (list float * list float).

(** [matlab_fns.geotiffwrite]. *)
Variable geotiffwrite : string -> raster -> georef -> Z -> result unit.

(** Lines 535-664, 666-729 and 732-1109. *)
Variable after_sampling : scene georef -> Sampler.state -> io unit.
Variable depth_stage : scene georef -> io unit.
Variable classification_stage : scene georef -> io unit.

(** Python's [int] on a command-line argument. *)
Variable py_int : string -> result Z.

(** Lines 140-359: reading, geometry, conversion, and the optional output
    of the reflectance raster. *)
Definition prologue (X Z_ loc_out loc : string) (coor_sys Rrs_write : Z)
  : io (scene georef) :=
  let fname := basename X in
  let id := substring 0 18 fname in
  AR <- lift (geotiffread X) ;;
  let A := fst AR in
  print "input size: {}" [VObject] ;;;
  meta <- lift (read_xml Z_) ;;
  _ <- lift (Geometry.scene_geometry (acq meta)) ;;
  terms <- lift (rayleigh meta) ;;
  let sz_0 := Nat.min (List.length A) (NUMROWS meta) in
  let sz_1 := Nat.min (List.length (hd [] A)) (NUMCOLUMNS meta) in
  print "szA: {}" [VObject] ;;;
  print "szB: {}" [VObject] ;;;
  print "sz : {}" [VObject] ;;;
  print "calculating Rrs..." [] ;;;
  print "ESd:{}TZ:{}TV:{}" [VObject; VObject; VObject] ;;;
  print "irr" [VObject] ;;;
  print "tau" [VObject] ;;;
  print "Pr " [VObject] ;;;
  print "rrd" [VObject] ;;;
  print "kf " [VObject] ;;;
  print "thetaplus\T" [VObject] ;;;
  C <- lift (coefficients meta terms) ;;
  print "C1" [VObject] ;;;
  print "C2" [VObject] ;;;
  let Rrs := Converter.reflectance A (fst C) (snd C) in
  print "  Rrs size: {}" [VObject] ;;;
  (if (Rrs_write =? 1)%Z then
     let Z_Rrs := loc_out ++ id ++ "_" ++ loc ++ "_Rrs.tif" in
     lift (geotiffwrite Z_Rrs Rrs (snd AR) coor_sys) ;;;
     emit (EvWrite Z_Rrs)
   else ret tt) ;;;
  ret (mkScene Rrs (snd AR) sz_0 sz_1 (zeta_of terms)).

(** Lines 361-664: the block under [if d_t > 0]. *)
Definition sampling_stage (sc : scene georef) : io unit :=
  print "Running DT and/or rrs conversion..." [] ;;;
  s <- run_stmt (Sampler.sampling_pass (zeta sc) G (Rrs sc) (sz0 sc) (sz1 sc))
                (Sampler.init (sz0 sc * sz1 sc)) ;;
  let locals := locals_at_532 s in
  emit EvDebugger ;;;
  n_water <- lift (read_name locals "n_water") ;;
  print "n_water" [n_water] ;;;
  n_glinted <- lift (read_name locals "n_glinted") ;;
  print "n_glinted" [n_glinted] ;;;
  after_sampling sc s.

(** Lines 361-1109: what follows the prologue. *)
Definition stages (d_t : Z) (sc : scene georef) : io unit :=
  (if (d_t >? 0)%Z then sampling_stage sc else ret tt) ;;;
  (if (d_t =? 1)%Z then depth_stage sc
   else if (d_t =? 2)%Z then classification_stage sc
   else ret tt).

(** Lines 128-1111. *)
Definition process_file (X Z_ loc_out loc : string)
           (coor_sys d_t Rrs_write : Z) : io unit :=
  sc <- prologue X Z_ loc_out loc coor_sys Rrs_write ;;
  stages d_t sc.

(** Lines 1115-1130. *)
Definition main (input_tiff input_xml output_dir roi_name
                 crd_sys dt_out rrs_out : string) : io unit :=
  let crd_sys := "EPSG:4326" in
  coor_sys <-
    (if String.eqb crd_sys "EPSG:4326"
     then ret 4326%Z
     else lift (Raise (ValueError
                         ("unknown coord sys: '" ++ crd_sys ++ "'")))) ;;
  d_t <- lift (py_int dt_out) ;;
  Rrs_write <- lift (py_int rrs_out) ;;
  process_file input_tiff input_xml output_dir roi_name
               coor_sys d_t Rrs_write.

(** What the specification asks of [main]: any other coordinate system is a
    ValueError that names it, and nothing else happens. *)
Definition rejects_other_coordinate_systems : Prop :=
  forall input_tiff input_xml output_dir roi_name crd_sys dt_out rrs_out,
    crd_sys <> "EPSG:4326" ->
    main input_tiff input_xml output_dir roi_name crd_sys dt_out rrs_out =
    ([], Raise (ValueError ("unknown coord sys: '" ++ crd_sys ++ "'"))).

End Collaborators.

(** *** A scene to run on *)

(** Collaborators for a 1 x 1 image: readers that return it, a writer that
    succeeds, unit coefficients. *)
Definition tiny_meta : metadata :=
  mkMeta 1 1 Geometry.j2000 150 60 80 100 10 [1; 1; 1; 1; 1; 1; 1; 1]%float
         0.

Definition tiny_read (_ : string) : result (raster * unit) :=
  Ok ([[[51; 51; 51; 51; 51; 51; 51; 51]]]%float, tt).

Definition tiny_xml (_ : string) : result metadata := Ok tiny_meta.

Definition tiny_rayleigh (_ : metadata) : result float := Ok 0.5%float.

Definition tiny_coefficients (_ : metadata) (_ : float)
  : result (list float * list float) :=
  Ok ([0.001; 0.001; 0.001; 0.001; 0.001; 0.001; 0.001; 0.001]%float,
      [0.001; 0.001; 0.001; 0.001; 0.001; 0.001; 0.001; 0.001]%float).

Definition tiny_write (_ : string) (_ : raster) (_ : unit) (_ : Z)
  : result unit := Ok tt.

(** Decimal strings of one digit, enough for the two selectors. *)
Definition digit_int (s : string) : result Z :=
  if String.eqb s "0" then Ok 0%Z
  else if String.eqb s "1" then Ok 1%Z
  else if String.eqb s "2" then Ok 2%Z
  else Raise (ValueError "invalid literal for int() with base 10").

Definition tiny_process_file (later : io unit) :=
  process_file unit tiny_read tiny_xml float tiny_rayleigh (fun z => z)
               tiny_coefficients tiny_write
               (fun _ _ => later) (fun _ => later) (fun _ => later).

Definition tiny_main (later : io unit) :=
  main unit tiny_read tiny_xml float tiny_rayleigh (fun z => z)
       tiny_coefficients tiny_write
       (fun _ _ => later) (fun _ => later) (fun _ => later) digit_int.

End Pipeline.

(** ** 4.7 DecisionTreeClassifier (lines 732-1103) *)

Module Classifier.

Local Open Scope float_scope.

Import Sampler.

Local Notation "x >? y" := (PrimFloat.ltb y x) (at level 70, no associativity).

(** The scene-adaptive thresholds of lines 637-645. *)
Record thresholds : Type := mkThresholds {
  avg_SD_sum : float;
  avg_veg_sum : float;
  avg_mang_sum : float;
  avg_water_sum : float
}.

(** *** First-level tests *)

(** Lines 739-744. *)
Definition test_sand_mud (px : pixel) : bool :=
  ((band px 6 - band px 1) / (band px 6 + band px 1) <? 0.60)
  && (band px 4 >? band px 3)
  && (band px 3 >? band px 2).

(** Lines 780-790: [a and b and c and d or e and f and g]. *)
Definition test_mud_developed (px : pixel) : bool :=
  ((band px 1 >? band px 2) && (band px 6 >? band px 2)
   && (band px 1 <? 0.1)
   && ((band px 7 - band px 4) / (band px 7 + band px 4) <? 0.20))
  || ((band px 7 >? 0.05) && (band px 6 >? band px 1)
      && ((band px 7 - band px 4) / (band px 7 + band px 4) <? 0.1)).

(** Lines 797-801. *)
Definition test_ndvi (px : pixel) : bool :=
  ((band px 7 - band px 4) / (band px 7 + band px 4) >? 0.20)
  && (band px 6 >? band px 2).

(** Lines 882-896: [a and b or c and ... or d and ...]. *)
Definition test_water (px : pixel) : bool :=
  ((band px 7 <? 0.2) && (band px 7 >? 0))
  || ((band px 7 <? band px 6) && (band px 5 <? band px 6)
      && (band px 5 <? band px 4) && (band px 3 <? band px 4)
      && (band px 3 <? band px 2) && (band px 7 >? 0))
  || ((band px 7 >? band px 6) && (band px 5 >? band px 6)
      && (band px 5 >? band px 4) && (band px 3 >? band px 4)
      && (band px 3 >? band px 2) && (band px 7 >? 0)).

(** *** Second-level trees *)

Section Trees.

(** The value of [BW(j, k) == 1] at the pixel: the mask [BW] comes from the
    morphological filters of skimage (lines 586-587). *)
Variable BW_is_1 : result bool.

Variable th : thresholds.

(** Lines 745-779. *)
Definition sand_mud_complex (px : pixel) : result Z :=
  if (band px 6 <? band px 1) && (band px 7 >? band px 4) then
    Ok 0%Z
  else if ((band px 7 - band px 4) / (band px 7 + band px 4) <? 0.01)
          && (band px 7 >? 0.05) then
    bind BW_is_1 (fun developed =>
      if developed then Ok 11%Z
      else if py_sum (slice px 5 8) <? avg_SD_sum th then Ok 22%Z
      else Ok 21%Z)
  else if band px 4 >? band px 1 + ((band px 6 - band px 1) / 5) * 2 then
    Ok 21%Z
  else if (band px 4 <? (((band px 6 - band px 1) / 5) * 3 + band px 1) * 0.60)
          && (band px 6 >? 0.2) then
    Ok 31%Z
  else Ok 22%Z.

(** Lines 791-795. *)
Definition mud_developed (px : pixel) : result Z :=
  bind BW_is_1 (fun developed => if developed then Ok 11%Z else Ok 22%Z).

(** Lines 818-836. *)
Definition wetland_or_upland_1 (px : pixel) : Z :=
  if (band px 1 - band px 4) / (band px 1 + band px 4) <? 0.4 then
    if (band px 6 >? 0.12)
       && (py_sum (slice px 6 7) / py_sum (slice px 2 4) >? 2)
    then 33%Z
    else 31%Z
  else 32%Z.

(** Lines 840-859. *)
Definition wetland_or_upland_2 (px : pixel) : Z :=
  if (band px 1 - band px 4) / (band px 1 + band px 4) <? 0.4 then
    if (band px 6 >? 0.12)
       && (py_sum (slice px 6 7) / py_sum (slice px 2 4) >? 2)
    then 33%Z
    else 31%Z
  else 32%Z.

(** Lines 805-880. *)
Definition vegetation_complex (px : pixel) : Z :=
  if (band px 6 >? band px 1)
     && ((band px 6 - band px 1) / (band px 6 + band px 1) <? 0.20)
     && ((band px 6 - band px 7) / (band px 6 + band px 7) >? 0.01) then
    0%Z
  else if py_sum (slice px 2 4) <? avg_veg_sum th then
    wetland_or_upland_1 px
  else if py_sum (slice px 6 7) <? avg_mang_sum th then
    wetland_or_upland_2 px
  else if (band px 7 - band px 4) / (band px 7 + band px 4) >? 0.65 then
    32%Z
  else if (band px 4 >? (((band px 6 - band px 1) / 5) * 3 + band px 1) * 0.60)
          && (band px 6 <? 0.2) then
    31%Z
  else if band px 6 <? 0.12 then 30%Z
  else 32%Z.

(** Lines 956-996: the split of the water branch. *)
Definition water_split (px : pixel) : Z :=
  if band px 5 <? band px 6 then 0%Z
  else if (band px 2 - band px 3) / (band px 2 + band px 3) <? 0.10 then
    if (band px 3 >? band px 2) || (band px 4 >? band px 2) then 53%Z
    else if (py_sum (slice px 2 4) >? avg_water_sum th)
            && ((band px 4 - band px 1) / (band px 4 + band px 1) >? 0.1)
    then 52%Z
    else if (band px 3 >? band px 1)
            && ((band px 2 - band px 5) / (band px 2 + band px 5) <? 0.60)
    then
      if (band px 2 - band px 4) / (band px 2 + band px 4) >? 0.1
      then 54%Z
      else 55%Z
    else 51%Z
  else 51%Z.

(** Lines 1025-1064: the split of the fallback branch. *)
Definition fallback_split (px : pixel) : Z :=
  if band px 5 <? band px 6 then 0%Z
  else if (band px 2 - band px 3) / (band px 2 + band px 3) <? 0.10 then
    if (band px 3 >? band px 2) || (band px 4 >? band px 2) then 53%Z
    else if (py_sum (slice px 2 4) >? avg_water_sum th)
            && ((band px 4 - band px 1) / (band px 4 + band px 1) >? 0.1)
    then 52%Z
    else if (band px 3 >? band px 1)
            && ((band px 2 - band px 5) / (band px 2 + band px 5) <? 0.60)
    then
      if (band px 2 - band px 4) / (band px 2 + band px 4) >? 0.10
      then 54%Z
      else 55%Z
    else 51%Z
  else 51%Z.

(** Lines 898-943 and 1000-1013: deglinting, conversion to subsurface
    values and relative depth, which rest on the arrays allocated on lines
    659-662; what they leave in [Rrs[j, k, :]] for the split to read. *)
Variable prepare_water : pixel -> result pixel.
Variable prepare_fallback : pixel -> result pixel.

(** Lines 739-1064: the class of one pixel. *)
Definition classify (px : pixel) : result Z :=
  if test_sand_mud px then sand_mud_complex px
  else if test_mud_developed px then mud_developed px
  else if test_ndvi px then Ok (vegetation_complex px)
  else if test_water px then
    bind (prepare_water px) (fun px' => Ok (water_split px'))
  else
    bind (prepare_fallback px) (fun px' => Ok (fallback_split px')).

End Trees.

(** The class codes of the comments of lines 749-1063. *)
Definition class_codes : list Z :=
  [0; 11; 21; 22; 30; 31; 32; 33; 51; 52; 53; 54; 55]%Z.

(** *** The loops *)

(** A raster of class codes. *)
Definition code_map : Type := list (list Z).

(** [map[j, k] = c]. *)
Definition set_code (m : code_map) (j k : nat) (c : Z) : result code_map :=
  match nth_error m j with
  | Some row => bind (set_nth row k c) (fun row' => set_nth m j row')
  | None => Raise IndexError
  end.

Definition code_at (m : code_map) (j k : nat) : option Z :=
  match nth_error m j with
  | Some row => nth_error row k
  | None => None
  end.

(** [range(1, n)]. *)
Definition range_from_1 (n : nat) : list nat := seq 1 (n - 1).

Section Loops.

(** The class of the pixel at (j, k): [classify] with the mask, the
    thresholds and the preparation of that pixel. *)
Variable classify_at : nat -> nat -> pixel -> result Z.

Variable Rrs : raster.

(** Lines 737-1064 at one pixel. *)
Definition classify_cell (j k : nat) (m : code_map) : result code_map :=
  if classifier_guard (band (pixel_at Rrs j k) 0) then
    bind (classify_at j k (pixel_at Rrs j k)) (fun c => set_code m j k c)
  else Ok m.

(** Lines 736-1068: [for k in range(1, szA[1])]. *)
Fixpoint classify_row (j : nat) (ks : list nat) (m : code_map)
  : result code_map :=
  match ks with
  | [] => Ok m
  | k :: ks' => bind (classify_cell j k m) (classify_row j ks')
  end.

(** Line 1091, [if filter > 0:], in a function that binds no [filter]: the
    name is Python's built-in, which does not compare with an integer. *)
Definition filter_is_positive : result bool :=
  Raise (TypeError
           "'>' not supported between instances of 'type' and 'int'").

(** Lines 1091-1109, indented under [for j]: what follows the loop over
    [k] in every iteration of the loop over [j].  [outputs] stands for the
    two branches that write the map and for the write of the subsurface
    raster. *)
Definition after_row (outputs : bool -> code_map -> result code_map)
           (m : code_map) : result code_map :=
  bind filter_is_positive (fun filtered => outputs filtered m).

(** Lines 735-1109: [for j in range(1, szA[0])]. *)
Fixpoint classify_rows (outputs : bool -> code_map -> result code_map)
         (js : list nat) (cols : nat) (m : code_map) : result code_map :=
  match js with
  | [] => Ok m
  | j :: js' =>
      bind (classify_row j (range_from_1 cols) m) (fun m1 =>
      bind (after_row outputs m1) (fun m2 =>
      classify_rows outputs js' cols m2))
  end.

(** Lines 732-1109 for an image of [rows] by [cols] pixels. *)
Definition classification (outputs : bool -> code_map -> result code_map)
           (rows cols : nat) (m : code_map) : result code_map :=
  classify_rows outputs (range_from_1 rows) cols m.

End Loops.

End Classifier.

(** ** Scene statistics (lines 535-541 and 637-657) *)

Module Statistics.

Local Open Scope float_scope.

Local Notation "x >? y" := (PrimFloat.ltb y x) (at level 70, no associativity).

(** [numpy.mean] of a list: the sum over the count; of an empty list,
    0/0. *)
Definition np_mean (l : list float) : float :=
  fold_left PrimFloat.add l 0
  / PrimFloat.of_uint63 (Uint63.of_Z (Z.of_nat (List.length l))).

(** Line 644, [sum_water_rrs[sum_water_rrs == 0] = numpy.nan] on a list:
    the comparison of a list with 0 is [False], and [False] as an index is
    0. *)
Definition mask_zero_sums (sum_water_rrs : list float)
  : result (list float) :=
  set_nth sum_water_rrs 0 nan.

(** Lines 643-645. *)
Definition water_sum_mean (sum_water_rrs : list float) : result float :=
  bind (mask_zero_sums sum_water_rrs) (fun l => Ok (np_mean l)).

(** Line 535, [water[water[:, 0] == 0] = numpy.nan]: the rows whose first
    value is 0 become rows of not-a-number. *)
Definition mask_unset_rows (water : plane) : plane :=
  map (fun row =>
         if nth 0 row nan =? 0
         then map (fun _ => nan) row
         else row)
      water.

(** Python's [min] of a sequence: the first of the least values, and a
    ValueError for an empty one. *)
Definition py_min (l : list float) : result float :=
  match l with
  | [] => Raise (ValueError "min() arg is an empty sequence")
  | x :: l' => Ok (fold_left (fun m y => if y <? m then y else m) l' x)
  end.

(** Python's [max]. *)
Definition py_max (l : list float) : result float :=
  match l with
  | [] => Raise (ValueError "max() arg is an empty sequence")
  | x :: l' => Ok (fold_left (fun m y => if y >? m then y else m) l' x)
  end.

(** Lines 535-541 for one of the two columns (6 for NIR1, 7 for NIR2):
    [min(i for i in water[:, c] if i > 0)]. *)
Definition positive_minimum (water : plane) (c : nat) : result float :=
  py_min (filter (fun i => i >? 0) (column (mask_unset_rows water) c)).

(** The values line 539 draws from, written without the mask. *)
Definition positive_values_of_set_rows (water : plane) (c : nat)
  : list float :=
  map (fun row => nth c row nan)
      (filter (fun row => negb (nth 0 row nan =? 0) && (nth c row nan >? 0))
              water).

End Statistics.

(** ** The statistics of a scene (lines 637-645) *)

Module SceneStatistics.

Local Open Scope float_scope.

Import Statistics.

(** [numpy.std]: the square root of the mean of the squared deviations
    from the mean. *)
Definition np_std (l : list float) : float :=
  let m := np_mean l in
  PrimFloat.sqrt
    (np_mean (map (fun x => PrimFloat.abs (x - m) * PrimFloat.abs (x - m)) l)).

(** The six values of lines 637-645. *)
Record statistics : Type := mkStatistics {
  avg_SD_sum : float;
  stdev_SD_sum : float;
  avg_veg_sum : float;
  avg_dead_veg : float;
  avg_mang_sum : float;
  avg_water_sum : float
}.

(** Lines 637-645, from the lists the sampler filled. *)
Definition scene_statistics (s : Sampler.state) : result statistics :=
  let avg_SD_sum := np_mean (Sampler.sum_SD s) in
  let stdev_SD_sum := np_std (Sampler.sum_SD s) in
  let avg_veg_sum := np_mean (Sampler.sum_veg s) in
  let avg_dead_veg := np_mean (Sampler.dead_veg s) in
  let avg_mang_sum := np_mean (Sampler.sum_veg2 s) in
  bind (water_sum_mean (Sampler.sum_water_rrs s)) (fun avg_water_sum =>
  Ok (mkStatistics avg_SD_sum stdev_SD_sum avg_veg_sum avg_dead_veg
                   avg_mang_sum avg_water_sum)).

End SceneStatistics.

(** ** Exceptions beyond those of the pipeline's control flow *)

Module PyErrors.

Inductive error : Type :=
  | Builtin (e : exn)
  | OverflowError (msg : string)
  | AttributeError (msg : string).

Inductive answer (A : Type) : Type :=
  | Value (a : A)
  | Error (e : error).

Arguments Value {A} a.
Arguments Error {A} e.

Definition and_then {A B : Type} (r : answer A) (k : A -> answer B)
  : answer B :=
  match r with
  | Value a => k a
  | Error e => Error e
  end.

Definition of_result {A : Type} (r : result A) : answer A :=
  match r with
  | Ok a => Value a
  | Raise e => Error (Builtin e)
  end.

End PyErrors.

(** ** The cloud-mask threshold (lines 647-657) *)

Module CloudMask.

Local Open Scope float_scope.

Import PyErrors.

(** The nearest integer to [m / 2^k], ties to the even one. *)
Definition round_half_even (m : Z) (k : positive) : Z :=
  let q := (m / Z.pos (2 ^ k))%Z in
  let r := (m mod Z.pos (2 ^ k))%Z in
  let half := Z.pos (2 ^ k) in
  if (2 * r <? half)%Z then q
  else if (half <? 2 * r)%Z then (q + 1)%Z
  else if Z.even q then q else (q + 1)%Z.

(** Python's [round] on a float: an integer, and an exception for a
    not-a-number or an infinity. *)
Definition py_round (x : float) : answer Z :=
  match Prim2SF x with
  | S754_zero _ => Value 0%Z
  | S754_nan =>
      Error (Builtin (ValueError "cannot convert float NaN to integer"))
  | S754_infinity _ =>
      Error (OverflowError "cannot convert float infinity to integer")
  | S754_finite s m e =>
      let a :=
        match e with
        | Z0 => Z.pos m
        | Zpos p => (Z.pos m * Z.pos (2 ^ p))%Z
        | Zneg p => round_half_even (Z.pos m) p
        end in
      Value (if s then (- a)%Z else a)
  end.

(** What a name of the function is bound to on line 653. *)
Inductive object : Type :=
  | NoneObject
  | ListObject (items : list float).

(** [list(c_val).sort(reverse=True)]: the method sorts its list in place
    and returns [None]. *)
Definition sort_method_result (c_val : list float) : object := NoneObject.

(** [obj(arg)]: a call. Neither [None] nor a list can be called. *)
Definition call (obj : object) (arg : Z) : answer float :=
  match obj with
  | NoneObject =>
      Error (Builtin (TypeError "'NoneType' object is not callable"))
  | ListObject _ =>
      Error (Builtin (TypeError "'list' object is not callable"))
  end.

(** Lines 647-657. *)
Definition cloud_threshold (num_pix : nat) (cl_cov : float)
           (c_val : list float) : answer float :=
  if 0 <? cl_cov then
    and_then
      (py_round (PrimFloat.of_uint63 (Uint63.of_Z (Z.of_nat num_pix))
                 * cl_cov * 0.01))
      (fun num_cld_pix =>
         let srt_c := sort_method_result c_val in
         call srt_c num_cld_pix)
  else
    and_then (of_result (Statistics.py_max c_val))
             (fun m => Value (m + 1)).

End CloudMask.

(** ** [read_xml] (lines 76-125) *)

Module Metadata.

Import PyErrors.

Local Open Scope string_scope.

(** An element of the document: its tag, its text, its children. *)
Inductive element : Type :=
  | Element (tag : string) (text : option string) (children : list element).

Definition tag_of (e : element) : string :=
  match e with Element t _ _ => t end.

Definition text_of (e : element) : option string :=
  match e with Element _ x _ => x end.

Definition children_of (e : element) : list element :=
  match e with Element _ _ c => c end.

(** [e.find(tag)]: the first child with the tag, or [None]; on [None]
    itself, an AttributeError. *)
Definition find_child (e : option element) (tag : string)
  : answer (option element) :=
  match e with
  | None =>
      Error (AttributeError "'NoneType' object has no attribute 'find'")
  | Some el =>
      Value (List.find (fun c => String.eqb (tag_of c) tag) (children_of el))
  end.

(** [e.text]. *)
Definition text (e : option element) : answer (option string) :=
  match e with
  | None =>
      Error (AttributeError "'NoneType' object has no attribute 'text'")
  | Some el => Value (text_of el)
  end.

Section ReadXml.

(** Python's [int] and [float] on a string, and [datetime.strptime] with
    the format of line 100. *)
Variable py_int : string -> result Z.
Variable py_float : string -> result float.
Variable strptime : string -> result Geometry.acquisition.

Definition none_argument {A : Type} (what : string) : answer A :=
  Error (Builtin (TypeError what)).

(** [int(x)] for the text of an element. *)
Definition int_of (x : option string) : answer Z :=
  match x with
  | Some s => of_result (py_int s)
  | None => none_argument "int() argument must be a string, not 'NoneType'"
  end.

(** [float(x)]. *)
Definition float_of (x : option string) : answer float :=
  match x with
  | Some s => of_result (py_float s)
  | None => none_argument "float() argument must be a string, not 'NoneType'"
  end.

(** [datetime.strptime(x, "%Y-%m-%dT%H:%M:%S.%fZ")]. *)
Definition datetime_of (x : option string) : answer Geometry.acquisition :=
  match x with
  | Some s => of_result (strptime s)
  | None => none_argument "strptime() argument 1 must be str, not None"
  end.

(** [e.find(a).text]. *)
Definition text_at (e : option element) (a : string)
  : answer (option string) :=
  and_then (find_child e a) text.

(** [e.find(a).find(b).text]. *)
Definition text_at2 (e : option element) (a b : string)
  : answer (option string) :=
  and_then (find_child e a) (fun x => text_at x b).

(** A list comprehension whose element expression can raise. *)
Fixpoint for_all {A B : Type} (f : A -> answer B) (l : list A)
  : answer (list B) :=
  match l with
  | [] => Value []
  | a :: l' =>
      and_then (f a) (fun b =>
      and_then (for_all f l') (fun bs => Value (b :: bs)))
  end.

(** Lines 92-93. *)
Definition band_tags : list string :=
  [ "BAND_C"; "BAND_B"; "BAND_G"; "BAND_Y"; "BAND_R"; "BAND_RE";
    "BAND_N"; "BAND_N2" ].

(** The tuple of lines 122-125. *)
Record fields : Type := mkFields {
  szB : list Z;
  aq : Geometry.acquisition;
  sunaz : float;
  sunel : float;
  satel : float;
  sensaz : float;
  satview : float;
  kf : list float;
  cl_cov : float
}.

(** Lines 82-125, on the root of the parsed document. *)
Definition read_xml (root : element) : answer fields :=
  and_then (find_child (Some root) "IMD") (fun imd =>
  and_then (and_then (text_at imd "NUMROWS") int_of) (fun rows =>
  and_then (and_then (text_at imd "NUMCOLUMNS") int_of) (fun cols =>
  let szB := [rows; cols; 0%Z] in
  and_then
    (for_all (fun band =>
                and_then (text_at2 imd band "ABSCALFACTOR") float_of)
             band_tags) (fun kf =>
  and_then (and_then (text_at2 imd "IMAGE" "FIRSTLINETIME") datetime_of)
           (fun aq_dt =>
  and_then (and_then (text_at2 imd "IMAGE" "MEANSUNEL") float_of)
           (fun sunel =>
  and_then (and_then (text_at2 imd "IMAGE" "MEANOFFNADIRVIEWANGLE") float_of)
           (fun satview =>
  and_then (and_then (text_at2 imd "IMAGE" "MEANSUNAZ") float_of)
           (fun sunaz =>
  and_then (and_then (text_at2 imd "IMAGE" "MEANSATAZ") float_of)
           (fun sensaz =>
  and_then (and_then (text_at2 imd "IMAGE" "MEANSATEL") float_of)
           (fun satel =>
  and_then (and_then (text_at2 imd "IMAGE" "CLOUDCOVER") float_of)
           (fun cl_cov =>
  Value (mkFields szB aq_dt sunaz sunel satel sensaz satview kf cl_cov)
  ))))))))))).

End ReadXml.

(** The elements [read_xml] reads under IMD and under IMAGE. *)
Definition image_tags : list string :=
  [ "FIRSTLINETIME"; "MEANSUNEL"; "MEANOFFNADIRVIEWANGLE"; "MEANSUNAZ";
    "MEANSATAZ"; "MEANSATEL"; "CLOUDCOVER" ].

(** A child with the tag exists. *)
Definition has_child (e : element) (tag : string) : Prop :=
  List.find (fun c => String.eqb (tag_of c) tag) (children_of e) <> None.

(** A document with every element [read_xml] reads. *)
Definition leaf (tag value : string) : element :=
  Element tag (Some value) [].

Definition sample_document : element :=
  Element "isd" None
    [ Element "IMD" None
        ([ leaf "NUMROWS" "1"; leaf "NUMCOLUMNS" "1" ]
         ++ map (fun b => Element b None [leaf "ABSCALFACTOR" "1"]) band_tags
         ++ [ Element "IMAGE" None
                (map (fun t => leaf t "1") image_tags) ])%list ].

End Metadata.

(** * Properties *)

(** ** Scene geometry *)

Section GeometryFacts.

Import Geometry.

Lemma date_roll_rolled (y m : Z) :
  (m = 1 \/ m = 2)%Z -> date_roll y m = ((y - 1)%Z, (m + 12)%Z).
Proof.
  intros [-> | ->]; reflexivity.
Qed.

Lemma date_roll_kept (y m : Z) :
  m <> 1%Z -> m <> 2%Z -> date_roll y m = (y, m).
Proof.
  intros H1 H2. unfold date_roll.
  destruct (Z.eqb_spec m 1) as [E | _]; [contradiction |].
  destruct (Z.eqb_spec m 2) as [E | _]; [contradiction |].
  reflexivity.
Qed.

(** C9 (as amended): the months rolled into the prior year are January and
    February, which become months 13 and 14 of the year before; the year and
    the month of every other date, December included, are left unchanged. *)
Theorem date_roll_january_february :
  forall y m : Z,
    ((m = 1 \/ m = 2)%Z -> date_roll y m = ((y - 1)%Z, (m + 12)%Z)) /\
    ((m <> 1 /\ m <> 2)%Z -> date_roll y m = (y, m)).
Proof.
  intros y m; split.
  - apply date_roll_rolled.
  - intros [H1 H2]; now apply date_roll_kept.
Qed.

Lemma date_roll_january_february_witness :
  date_roll 2017 1 = (2016%Z, 13%Z) /\ date_roll 2017 12 = (2017%Z, 12%Z).
Proof.
  split.
  - apply (proj1 (date_roll_january_february 2017 1)). left; reflexivity.
  - apply (proj2 (date_roll_january_february 2017 12)). split; discriminate.
Defined.

(** C9 (counterexample): the roll does not treat December and January as the
    claim words it: a December date keeps its year. *)
Lemma december_is_not_rolled : ~ rolls_december_and_january.
Proof.
  intros H.
  destruct (H 2017%Z 12%Z ltac:(lia)) as [Hdec _].
  specialize (Hdec (or_introl eq_refl)).
  vm_compute in Hdec. discriminate Hdec.
Qed.

(** The formula is the usual one: the epoch J2000.0 has Julian date
    2451545.0. *)
Example julian_date_j2000 : Qeq (julian_date j2000) 2451545.
Proof. reflexivity. Qed.

Local Open Scope R_scope.

Lemma cosd_bound (x : R) : -1 <= cosd x <= 1.
Proof. unfold cosd. apply COS_bound. Qed.

Lemma ESd_of_degs_bound (d : R) : 0.98329 <= ESd_of_degs d <= 1.01699.
Proof.
  unfold ESd_of_degs.
  pose proof (cosd_bound d) as H1.
  pose proof (cosd_bound (2 * d)) as H2.
  lra.
Qed.

Lemma esd_check_ok_iff (e : R) :
  esd_check e = Ok tt <-> 0.983 < e < 1.017.
Proof.
  unfold esd_check.
  destruct (Rlt_dec 0.983 e) as [Hl | Hl];
    [destruct (Rlt_dec e 1.017) as [Hu | Hu] |].
  - split; [intros _; split; assumption | reflexivity].
  - split; [discriminate | intros [_ H]; contradiction].
  - split; [discriminate | intros [H _]; contradiction].
Qed.

Lemma esd_check_raises (e : R) :
  ~ (0.983 < e < 1.017) -> esd_check e = Raise AssertionError.
Proof.
  intros H. unfold esd_check.
  destruct (Rlt_dec 0.983 e) as [Hl | Hl];
    [destruct (Rlt_dec e 1.017) as [Hu | Hu] |]; try reflexivity.
  exfalso; apply H; split; assumption.
Qed.

Lemma scene_geometry_ok (a : acquisition) :
  scene_geometry a = Ok (ESd a).
Proof.
  unfold scene_geometry.
  assert (H : esd_check (ESd a) = Ok tt).
  { apply esd_check_ok_iff. unfold ESd.
    pose proof (ESd_of_degs_bound (Q2R (degs a))). lra. }
  rewrite H. reflexivity.
Qed.

(** C4 (as amended): for every acquisition date and time the computed
    Earth-Sun distance lies in [0.98329, 1.01699], strictly inside the
    checked range, so the assertion passes and processing proceeds whatever
    the date is; the assertion itself passes exactly when
    0.983 < ESd < 1.017, both bounds strict, and is an AssertionError for
    every other value. *)
Theorem esd_assertion_strict_and_never_fails :
  (forall a : acquisition,
     0.98329 <= ESd a <= 1.01699 /\ scene_geometry a = Ok (ESd a)) /\
  (forall e : R, esd_check e = Ok tt <-> 0.983 < e < 1.017) /\
  (forall e : R, ~ (0.983 < e < 1.017) -> esd_check e = Raise AssertionError).
Proof.
  split; [| split].
  - intros a. split.
    + apply ESd_of_degs_bound.
    + apply scene_geometry_ok.
  - apply esd_check_ok_iff.
  - apply esd_check_raises.
Qed.

(** C4 (counterexample): a scene dated 31 December 9999 is not rejected, and
    the value 0.983, which belongs to the closed range of the claim, is. *)
Lemma far_future_scene_is_accepted :
  scene_geometry far_future = Ok (ESd far_future) /\
  esd_check 0.983 = Raise AssertionError.
Proof.
  split.
  - apply scene_geometry_ok.
  - apply esd_check_raises. lra.
Qed.

End GeometryFacts.

(** ** Arrays *)

Section ArrayFacts.

Context {A : Type}.

Lemma set_nth_lookup (l : list A) (i : nat) (x : A) (l' : list A) :
  set_nth l i x = Ok l' ->
  forall n, nth_error l' n = if (n =? i)%nat then Some x else nth_error l n.
Proof.
  revert i l'. induction l as [| h t IH]; intros i l' H.
  - destruct i; discriminate H.
  - destruct i as [| i'].
    + injection H as <-. intros [| n]; reflexivity.
    + simpl in H. destruct (set_nth t i' x) as [t' |] eqn:E; [| discriminate H].
      injection H as <-. intros [| n]; [reflexivity |].
      simpl. apply (IH _ _ E).
Qed.

Lemma set_nth_in_range (l : list A) (i : nat) (x : A) :
  (i < List.length l)%nat -> exists l', set_nth l i x = Ok l'.
Proof.
  revert i. induction l as [| h t IH]; intros i H; simpl in H.
  - lia.
  - destruct i as [| i'].
    + eexists; reflexivity.
    + destruct (IH i' ltac:(lia)) as [t' E]. exists (h :: t').
      simpl. rewrite E. reflexivity.
Qed.

End ArrayFacts.

Lemma set2_lookup (p : plane) (j k : nat) (x : float) (p' : plane) :
  set2 p j k x = Ok p' ->
  forall j' k',
    at2 p' j' k' =
    if ((j' =? j) && (k' =? k))%nat then Some x else at2 p j' k'.
Proof.
  unfold set2, at2. intros H j' k'.
  destruct (nth_error p j) as [row |] eqn:Erow; [| discriminate H].
  destruct (set_nth row k x) as [row' |] eqn:Eset; [| discriminate H].
  simpl in H. rewrite (set_nth_lookup _ _ _ _ H).
  destruct (Nat.eqb_spec j' j) as [-> | Hj]; simpl.
  - rewrite (set_nth_lookup _ _ _ _ Eset). rewrite Erow.
    destruct (k' =? k)%nat; reflexivity.
  - reflexivity.
Qed.

Lemma at2_zeros (rows cols j k : nat) (x : float) :
  at2 (zeros rows cols) j k = Some x -> x = 0%float.
Proof.
  unfold at2, zeros. intros H.
  destruct (nth_error (repeat (repeat 0%float cols) rows) j) as [row |] eqn:E;
    [| discriminate H].
  apply nth_error_In in E. apply repeat_spec in E. subst row.
  apply nth_error_In in H. now apply repeat_spec in H.
Qed.

Lemma at2_zeros_in_range (rows cols j k : nat) :
  (j < rows)%nat -> (k < cols)%nat ->
  at2 (zeros rows cols) j k = Some 0%float.
Proof.
  intros Hj Hk. unfold at2, zeros.
  rewrite nth_error_repeat by assumption.
  now rewrite nth_error_repeat.
Qed.

(** ** Reflectance conversion *)

Section ConverterFacts.

Import Converter.
Local Open Scope float_scope.

Lemma affine_bands_nth (px C1 C2 : list float) (d : nat) (a c1 c2 : float) :
  nth_error px d = Some a ->
  nth_error C1 d = Some c1 ->
  nth_error C2 d = Some c2 ->
  nth_error (affine_bands px C1 C2) d = Some (a * c1 - c2).
Proof.
  revert C1 C2 d.
  induction px as [| a0 px IH]; intros [| k1 C1] [| k2 C2] [| d] Ha H1 H2;
    simpl in *; try discriminate.
  - now injection Ha as ->; injection H1 as ->; injection H2 as ->.
  - now apply IH.
Qed.

Lemma affine_bands_length (px C1 C2 : list float) :
  List.length C1 = List.length px -> List.length C2 = List.length px ->
  List.length (affine_bands px C1 C2) = List.length px.
Proof.
  revert C1 C2.
  induction px as [| a px IH]; intros [| k1 C1] [| k2 C2] H1 H2;
    simpl in *; try discriminate; try reflexivity.
  f_equal. apply IH; lia.
Qed.

Lemma reflectance_at3 (A : raster) (C1 C2 : list float)
      (j k d : nat) (a c1 c2 : float) :
  at3 A j k d = Some a ->
  nth_error C1 d = Some c1 ->
  nth_error C2 d = Some c2 ->
  at3 (reflectance A C1 C2) j k d = Some (a * c1 - c2).
Proof.
  unfold at3, reflectance. intros Ha H1 H2.
  destruct (nth_error A j) as [row |] eqn:Erow; [| discriminate Ha].
  destruct (nth_error row k) as [px |] eqn:Epx; [| discriminate Ha].
  rewrite (map_nth_error _ _ _ Erow), (map_nth_error _ _ _ Epx).
  now apply affine_bands_nth.
Qed.

Lemma reflectance_shape (A : raster) (C1 C2 : list float) :
  map (@List.length pixel) (reflectance A C1 C2) = map (@List.length pixel) A.
Proof.
  unfold reflectance. rewrite map_map.
  apply map_ext. intros row. apply length_map.
Qed.

(** C8: with the coefficient vectors C1 and C2 fixed, the value of the
    output raster at every pixel (j, k) and every band d is
    raw count * C1[d] - C2[d], computed in floating point, whatever the raw
    counts are (no pixel is tested for no-data); the output has the rows and
    columns of the input, and equal inputs give equal outputs. *)
Theorem reflectance_is_affine_per_band :
  forall (A : raster) (C1 C2 : list float),
    (forall j k d a c1 c2,
        at3 A j k d = Some a ->
        nth_error C1 d = Some c1 ->
        nth_error C2 d = Some c2 ->
        at3 (reflectance A C1 C2) j k d = Some (a * c1 - c2)) /\
    map (@List.length pixel) (reflectance A C1 C2) = map (@List.length pixel) A /\
    (forall A' C1' C2',
        A' = A -> C1' = C1 -> C2' = C2 ->
        reflectance A' C1' C2' = reflectance A C1 C2).
Proof.
  intros A C1 C2. split; [| split].
  - intros j k d a c1 c2. apply reflectance_at3.
  - apply reflectance_shape.
  - intros A' C1' C2' -> -> ->. reflexivity.
Qed.

(** A pixel whose counts are all 0 or 2047, which the disabled code would
    have turned into not-a-number, is converted like any other. *)
Example sentinel_pixel_is_converted :
  is_sentinel [0; 2047; 0] = true /\
  reflectance [[[0; 2047; 0]]] [2; 3; 4] [1; 1; 1] = [[[-1; 6140; -1]]].
Proof. split; reflexivity. Qed.

End ConverterFacts.

(** ** Relative depth *)

Section BathymetryFacts.

Import Bathymetry.
Local Open Scope float_scope.

Lemma zeros_cells_ok (rows cols : nat) : cells_ok (zeros rows cols).
Proof.
  intros j k x H. left. exact (at2_zeros _ _ _ _ _ H).
Qed.

Lemma accepted_depth_ok (dp : float) : accepted dp = true -> depth_ok dp.
Proof.
  unfold accepted. intros H. apply andb_prop in H. right. exact H.
Qed.

Lemma record_depth_rejected (B : plane) (j k : nat) (dp : float) :
  accepted dp = false -> record_depth B j k dp = Ok (B, 0).
Proof.
  unfold record_depth. now intros ->.
Qed.

Lemma record_depth_lookup (B : plane) (j k : nat) (dp : float)
      (B' : plane) (dp' : float) :
  record_depth B j k dp = Ok (B', dp') ->
  forall j' k',
    at2 B' j' k' =
    if ((j' =? j) && (k' =? k))%nat && accepted dp
    then Some dp else at2 B j' k'.
Proof.
  unfold record_depth. intros H j' k'.
  destruct (accepted dp).
  - destruct (set2 B j k dp) as [B1 |] eqn:E; [| discriminate H].
    injection H as <- _. rewrite (set2_lookup _ _ _ _ _ E), andb_true_r.
    reflexivity.
  - injection H as <- _. now rewrite andb_false_r.
Qed.

Lemma record_depth_cells_ok (B : plane) (j k : nat) (dp : float)
      (B' : plane) (dp' : float) :
  cells_ok B -> record_depth B j k dp = Ok (B', dp') -> cells_ok B'.
Proof.
  intros HB H j' k' x Hx.
  rewrite (record_depth_lookup _ _ _ _ _ _ H) in Hx.
  destruct (((j' =? j) && (k' =? k))%nat && accepted dp) eqn:E.
  - injection Hx as <-. apply accepted_depth_ok.
    now apply andb_prop in E.
  - exact (HB _ _ _ Hx).
Qed.

(** The gate taken alone, on an array: it keeps the invariant, stores the
    ratio only when it is accepted, and otherwise changes nothing and sets
    [dp] to 0. *)
Lemma gate_alone_keeps_the_invariant (B : plane) (j k : nat) (dp : float)
      (B' : plane) (dp' : float) :
  cells_ok B ->
  record_depth B j k dp = Ok (B', dp') ->
  cells_ok B' /\
  (accepted dp = true -> dp' = dp /\ at2 B' j k = Some dp) /\
  (accepted dp = false -> dp' = 0 /\ B' = B).
Proof.
  intros HB H. split; [exact (record_depth_cells_ok _ _ _ _ _ _ HB H) |].
  split; intros Ha.
  - pose proof (record_depth_lookup _ _ _ _ _ _ H j k) as L.
    rewrite !Nat.eqb_refl, Ha in L. cbn [andb] in L.
    unfold record_depth in H. rewrite Ha in H.
    destruct (set2 B j k dp) as [B1 |]; [| discriminate H].
    injection H as _ <-. split; [reflexivity | exact L].
  - rewrite (record_depth_rejected _ _ _ _ Ha) in H.
    injection H as <- <-. split; reflexivity.
Qed.




(** The ratios the gate turns down. *)
Example rejected_ratios :
  accepted 0 = false /\ accepted 2 = false /\ accepted (-0.5) = false /\
  accepted 2.5 = false /\ accepted nan = false /\ accepted infinity = false /\
  accepted 1.25 = true.
Proof. repeat split. Qed.

End BathymetryFacts.

(** ** Glint estimation *)

Section GlintFacts.

Import Glint.
Local Open Scope float_scope.

Lemma exceeds_quarter_iff (u v : nat) :
  exceeds_quarter u v = true <-> (u < 4 * v)%nat.
Proof.
  unfold exceeds_quarter. rewrite negb_true_iff.
  rewrite <- not_true_iff_false, Qle_bool_iff.
  unfold Qle. cbn [Qnum Qden Qmult inject_Z].
  change (Qnum 0.25) with 25%Z. change (Qden 0.25) with 100%positive.
  lia.
Qed.

Variable mldivide : list float -> list float -> float.

Lemma E_glint_of_value (water : plane) :
  E_glint_of mldivide water =
  Ok [0; 0; 0; 0; 0; mldivide (column water 5) (column water 7)].
Proof. reflexivity. Qed.

(** The threshold half of C3: a vector is produced exactly when the count of
    glinted rows exceeds a quarter of the count of water rows. *)
Lemma glint_vector_iff_over_quarter (water : plane) (u v : nat) :
  (exists E, glint_estimator mldivide water u v = Ok (Some E)) <->
  (u < 4 * v)%nat.
Proof.
  rewrite <- exceeds_quarter_iff. unfold glint_estimator.
  rewrite E_glint_of_value.
  destruct (exceeds_quarter u v); simpl.
  - split; [reflexivity | intros _; eexists; reflexivity].
  - split; [intros [E H]; discriminate H | discriminate].
Qed.

(** C3 (what the code computes): when the vector is produced, its first five
    entries are the initial zeros and only the sixth is a slope, that of
    column 5 against column 7 (NIR2): the assignment into the vector follows
    the loop instead of being part of it. *)
Theorem glint_vector_keeps_only_last_slope :
  forall (water : plane) (u v : nat),
    glint_estimator mldivide water u v =
    if exceeds_quarter u v
    then Ok (Some [0; 0; 0; 0; 0; mldivide (column water 5) (column water 7)])
    else Ok None.
Proof.
  intros water u v. unfold glint_estimator.
  rewrite E_glint_of_value. now destruct (exceeds_quarter u v).
Qed.

End GlintFacts.

(** A table with 2 glinted rows out of 4: the vector produced is not the six
    regression slopes. *)
Example four_rows_vector :
  Glint.glint_estimator Glint.lstsq_slope Glint.four_rows 4 2 =
    Ok (Some [0; 0; 0; 0; 0; 0.75238095238095237]%float) /\
  Glint.six_slopes Glint.lstsq_slope Glint.four_rows =
    [0.66165413533834583; 0.69090909090909092; 0.62189054726368165;
     0.58787878787878789; 0.77443609022556392; 0.75238095238095237]%float.
Proof. split; reflexivity. Qed.

(** Both sides of the 25% boundary on a table of 1000 water rows. *)
Example quarter_boundary :
  Glint.exceeds_quarter 1000 249 = false /\
  Glint.exceeds_quarter 1000 250 = false /\
  Glint.exceeds_quarter 1000 251 = true.
Proof. repeat split. Qed.

(** ** Land-cover sampling *)

Section SamplerFacts.

Import Sampler.
Local Open Scope float_scope.

Variables zeta G : float.

(** *** The guard *)

Lemma sampler_guard_never_holds (x : float) : sampler_guard x = false.
Proof. reflexivity. Qed.

Lemma classifier_guard_is_not_nan (x : float) :
  classifier_guard x = negb (PrimFloat.is_nan x).
Proof. reflexivity. Qed.

Lemma visit_does_nothing (px : pixel) (s : state) :
  visit zeta G px s = (None, s).
Proof.
  unfold visit. now rewrite sampler_guard_never_holds.
Qed.

Lemma for_each_does_nothing {A : Type} (body : A -> stmt) (l : list A) :
  (forall a s, body a s = (None, s)) ->
  forall s, for_each l body s = (None, s).
Proof.
  intros Hbody. induction l as [| a l IH]; intros s; simpl.
  - reflexivity.
  - unfold then_. now rewrite Hbody.
Qed.

Lemma sampling_pass_skips (Rrs : raster) (sz0 sz1 : nat) (s : state) :
  sampling_pass zeta G Rrs sz0 sz1 s = (None, s).
Proof.
  unfold sampling_pass.
  apply for_each_does_nothing. intros j.
  apply for_each_does_nothing. intros k.
  apply visit_does_nothing.
Qed.

(** C2 (what the code computes): the pass over the image changes nothing,
    whatever the image holds; the counter of valid pixels and the list of
    band-0 values are after the pass what they were before it, because the
    guard [isnan(...) is False] of line 382 holds for no value. *)
Theorem sampling_pass_counts_nothing :
  forall (Rrs : raster) (sz0 sz1 : nat) (s : state),
    num_pix (snd (sampling_pass zeta G Rrs sz0 sz1 s)) = num_pix s /\
    c_val (snd (sampling_pass zeta G Rrs sz0 sz1 s)) = c_val s /\
    sampling_pass zeta G Rrs sz0 sz1 s = (None, s).
Proof.
  intros Rrs sz0 sz1 s. rewrite sampling_pass_skips. repeat split.
Qed.

(** *** The chain of tests *)

Lemma keeps_skip : keeps_entered skip.
Proof. intros s. reflexivity. Qed.

Lemma keeps_assign (f : state -> state) :
  (forall s, entered (f s) = entered s) -> keeps_entered (assign f).
Proof. intros H s. apply H. Qed.

Lemma keeps_then (c1 c2 : stmt) :
  keeps_entered c1 -> keeps_entered c2 -> keeps_entered (then_ c1 c2).
Proof.
  intros H1 H2 s. unfold then_. specialize (H1 s).
  destruct (c1 s) as [[e |] s1]; simpl in *.
  - exact H1.
  - now rewrite H2.
Qed.

Lemma keeps_assign_water (f : state -> result plane) :
  keeps_entered (assign_water f).
Proof.
  intros s. unfold assign_water. now destruct (f s).
Qed.

Lemma keeps_if (c : bool) (c1 c2 : stmt) :
  keeps_entered c1 -> keeps_entered c2 ->
  keeps_entered (if c then c1 else c2).
Proof. now destruct c. Qed.

Local Ltac keeps :=
  repeat first
    [ apply keeps_then
    | apply keeps_if
    | apply keeps_skip
    | apply keeps_assign_water
    | apply keeps_assign; intros ?; reflexivity ].

Lemma keeps_body_sand_developed (px : pixel) :
  keeps_entered (body_sand_developed px).
Proof. unfold body_sand_developed. keeps. Qed.

Lemma keeps_body_vegetation (px : pixel) :
  keeps_entered (body_vegetation px).
Proof. unfold body_vegetation. keeps. Qed.

Lemma keeps_body_glint_free (px : pixel) :
  keeps_entered (body_glint_free zeta G px).
Proof.
  unfold body_glint_free, store_bands, quality_subtest, advance_then_tag,
    tag_row.
  keeps.
Qed.

Lemma keeps_body_glinted_A (px : pixel) :
  keeps_entered (body_glinted_A px).
Proof. unfold body_glinted_A, store_bands, tag_row. keeps. Qed.

Lemma keeps_body_glinted_B (px : pixel) :
  keeps_entered (body_glinted_B px).
Proof. unfold body_glinted_B, store_bands, tag_row. keeps. Qed.

Lemma entered_after_enter (br : branch) (body : stmt) (s : state) :
  keeps_entered body ->
  entered (snd (then_ (enter br) body s)) = br :: entered s.
Proof.
  intros H. unfold then_, enter, assign. now rewrite H.
Qed.

(** C7: on any pixel the chain of tests enters at most one branch; the
    branch entered is the first, in the order sand/developed, vegetation,
    glint-free water, glinted A, glinted B, whose test holds, and no branch
    is entered when no test holds. *)
Theorem at_most_one_branch_fires :
  forall (px : pixel) (s : state),
    exists fired : list branch,
      entered (snd (sample_pixel zeta G px s)) = fired ++ entered s /\
      (List.length fired <= 1)%nat /\
      (forall br, In br fired ->
         test_of br px = true /\
         forall br', (priority br' < priority br)%nat ->
                     test_of br' px = false) /\
      (fired = [] -> forall br, test_of br px = false).
Proof.
  intros px s. unfold sample_pixel.
  destruct (test_sand_developed px) eqn:T0;
    [| destruct (test_vegetation px) eqn:T1;
       [| destruct (test_glint_free px) eqn:T2;
          [| destruct (test_glint_A px) eqn:T3;
             [| destruct (test_glint_B px) eqn:T4 ]]]].
  1: exists [SandDeveloped];
       rewrite (entered_after_enter _ _ _ (keeps_body_sand_developed px)).
  2: exists [Vegetation];
       rewrite (entered_after_enter _ _ _ (keeps_body_vegetation px)).
  3: exists [GlintFreeWater];
       rewrite (entered_after_enter _ _ _ (keeps_body_glint_free px)).
  4: exists [GlintedA];
       rewrite (entered_after_enter _ _ _ (keeps_body_glinted_A px)).
  5: exists [GlintedB];
       rewrite (entered_after_enter _ _ _ (keeps_body_glinted_B px)).
  1-5: split; [reflexivity |]; split; [simpl; lia |]; split;
       [ intros br [<- | []]; split; [assumption |];
         intros [] Hlt; simpl in Hlt; try lia; assumption
       | discriminate ].
  exists []. split; [reflexivity |]. split; [simpl; lia |].
  split; [intros br [] |]. intros _ []; assumption.
Qed.

(** The tests overlap: it is the order of the chain that makes the branches
    exclusive. *)
Example tests_overlap :
  test_sand_developed sand_and_vegetation = true /\
  test_vegetation sand_and_vegetation = true /\
  entered (snd (sample_pixel zeta G sand_and_vegetation (init 1)))
  = [SandDeveloped].
Proof. repeat split. Qed.

(** *** The water table *)

Lemma py_float_of_bands (px : pixel) :
  List.length px = 8%nat ->
  py_float px =
  Raise (TypeError "only length-1 arrays can be converted to Python scalars").
Proof.
  destruct px as [| x0 [| x1 px]]; simpl; intros H;
    [discriminate H | discriminate H | reflexivity].
Qed.

Lemma store_bands_raises (px : pixel) (s : state) :
  List.length px = 8%nat ->
  store_bands px s =
  (Some (TypeError "only length-1 arrays can be converted to Python scalars"),
   s).
Proof.
  intros H. unfold store_bands, assign_water.
  now rewrite (py_float_of_bands _ H).
Qed.

(** C6 (what the code computes): on a pixel of 8 bands that reaches the
    glint-free-water branch, the first statement of the branch raises a
    TypeError; the water table and the row pointer are left as they were, so
    no row holding the pixel's bands and its tag is stored. *)
Theorem glint_free_water_row_is_not_stored :
  forall (px : pixel) (s : state),
    List.length px = 8%nat ->
    test_sand_developed px = false ->
    test_vegetation px = false ->
    test_glint_free px = true ->
    sample_pixel zeta G px s =
    (Some (TypeError
             "only length-1 arrays can be converted to Python scalars"),
     with_entered (GlintFreeWater :: entered s) s).
Proof.
  intros px s Hlen H0 H1 H2. unfold sample_pixel.
  rewrite H0, H1, H2. unfold then_, enter, assign, body_glint_free.
  unfold then_. now rewrite (store_bands_raises _ _ Hlen).
Qed.

(** The two glinted branches fare no better. *)
Lemma glinted_A_row_is_not_stored (px : pixel) (s : state) :
  List.length px = 8%nat ->
  fst (body_glinted_A px s) =
  Some (TypeError "only length-1 arrays can be converted to Python scalars")
  /\ water (snd (body_glinted_A px s)) = water s
  /\ u (snd (body_glinted_A px s)) = u s.
Proof.
  intros Hlen. unfold body_glinted_A, then_.
  rewrite (store_bands_raises _ _ Hlen). simpl. auto.
Qed.

Lemma glinted_B_raises (px : pixel) (s : state) :
  List.length px = 8%nat ->
  exists e, fst (body_glinted_B px s) = Some e /\
            u (snd (body_glinted_B px s)) = u s.
Proof.
  intros Hlen. unfold body_glinted_B, then_, tag_row, assign_water.
  destruct (set2 (water s) (u s) 8 3) as [w |].
  - rewrite (store_bands_raises _ _ Hlen). simpl. eauto.
  - simpl. eauto.
Qed.

(** Lines 450-476 taken alone: the tag of a glint-free-water pixel goes to
    the row after the one the pointer was at, whose own flag is left as it
    was. *)
Lemma advance_then_tag_misses_the_row (px : pixel) (s : state) :
  fst (advance_then_tag px s) = None ->
  let s' := snd (advance_then_tag px s) in
  u s' = S (u s) /\
  at2 (water s') (u s) 8 = at2 (water s) (u s) 8 /\
  exists flag, at2 (water s') (S (u s)) 8 = Some flag /\
               (flag = 1 \/ flag = 2 \/ flag = 3).
Proof.
  unfold advance_then_tag, then_, assign, tag_row, assign_water.
  destruct (test_glint_A px); [| destruct (test_glint_B px)]; simpl;
    rewrite Nat.add_1_r;
    match goal with
    | |- context [set2 ?w ?i ?c ?x] => destruct (set2 w i c x) as [w' |] eqn:E
    end; simpl; try discriminate; intros _;
    (split; [reflexivity |]);
    rewrite !(set2_lookup _ _ _ _ _ E);
    (replace (u s =? S (u s))%nat with false
       by (symmetry; apply Nat.eqb_neq; lia));
    rewrite !Nat.eqb_refl; simpl;
    (split; [reflexivity |]); eexists; (split; [reflexivity |]); auto.
Qed.

End SamplerFacts.

(** C2 at a 1 x 1 image whose only pixel is valid: one pixel should be
    counted, and none is. *)
Example one_valid_pixel_is_not_counted :
  Sampler.count_valid Sampler.one_pixel_image 1 1 = 1%nat /\
  Sampler.num_pix
    (snd (Sampler.sampling_pass 0.5 1.56 Sampler.one_pixel_image 1 1
            (Sampler.init 1))) = 0%nat /\
  Sampler.c_val
    (snd (Sampler.sampling_pass 0.5 1.56 Sampler.one_pixel_image 1 1
            (Sampler.init 1))) = [] /\
  Sampler.classifier_guard (Sampler.band Sampler.calm_water 0) = true.
Proof. repeat split. Qed.

Lemma glint_free_water_row_is_not_stored_witness :
  Sampler.sample_pixel 0.5 1.56 Sampler.calm_water (Sampler.init 2) =
  (Some (TypeError "only length-1 arrays can be converted to Python scalars"),
   Sampler.with_entered [Sampler.GlintFreeWater] (Sampler.init 2)).
Proof.
  exact (glint_free_water_row_is_not_stored 0.5 1.56 Sampler.calm_water
           (Sampler.init 2) eq_refl eq_refl eq_refl eq_refl).
Defined.

(** ** Control flow of [process_file] and [main] *)

Section PipelineFacts.

Import Pipeline.
Local Open Scope string_scope.

Lemma iobind_ret_l {A B : Type} (a : A) (k : A -> io B) :
  iobind (ret a) k = k a.
Proof.
  unfold iobind, ret. now destruct (k a).
Qed.

Lemma read_n_water (s : Sampler.state) :
  read_name (locals_at_532 s) "n_water"
  = Ok (VInt (Z.of_nat (Sampler.u s))).
Proof. reflexivity. Qed.

(** The name read on line 533 is bound nowhere: line 528 binds
    [n_glInted]. *)
Lemma read_n_glinted (s : Sampler.state) :
  read_name (locals_at_532 s) "n_glinted" = Raise (NameError "n_glinted").
Proof. reflexivity. Qed.

Variable georef : Type.
Variable geotiffread : string -> result (raster * georef).
Variable read_xml : string -> result metadata.
Variable rayleigh_terms : Type.
Variable rayleigh : metadata -> result rayleigh_terms.
Variable zeta_of : rayleigh_terms -> float.
Variable coefficients :
  metadata -> rayleigh_terms -> result (list float * list float).
Variable geotiffwrite : string -> raster -> georef -> Z -> result unit.
Variable after_sampling : scene georef -> Sampler.state -> io unit.
Variable depth_stage : scene georef -> io unit.
Variable classification_stage : scene georef -> io unit.
Variable py_int : string -> result Z.

Local Abbreviation the_prologue :=
  (prologue georef geotiffread read_xml rayleigh_terms rayleigh zeta_of
            coefficients geotiffwrite).

Local Abbreviation the_process_file :=
  (process_file georef geotiffread read_xml rayleigh_terms rayleigh zeta_of
                coefficients geotiffwrite after_sampling depth_stage
                classification_stage).

Local Abbreviation the_main :=
  (main georef geotiffread read_xml rayleigh_terms rayleigh zeta_of
        coefficients geotiffwrite after_sampling depth_stage
        classification_stage py_int).

Lemma sampling_stage_raises (sc : scene georef) :
  sampling_stage georef after_sampling sc =
  ([ EvPrint "Running DT and/or rrs conversion..." [];
     EvDebugger;
     EvPrint "n_water" [VInt 0] ],
   Raise (NameError "n_glinted")).
Proof.
  unfold sampling_stage, run_stmt.
  rewrite sampling_pass_skips.
  reflexivity.
Qed.

Lemma stages_raise (d_t : Z) (sc : scene georef) :
  (d_t > 0)%Z ->
  stages georef after_sampling depth_stage classification_stage d_t sc =
  ([ EvPrint "Running DT and/or rrs conversion..." [];
     EvDebugger;
     EvPrint "n_water" [VInt 0] ],
   Raise (NameError "n_glinted")).
Proof.
  intros H. unfold stages.
  replace (d_t >? 0)%Z with true by (symmetry; now apply Z.gtb_lt, Z.gt_lt).
  now rewrite sampling_stage_raises.
Qed.

(** C1: with a pipeline-depth selector above 0, [process_file] never
    returns.  Either the prologue (reading, geometry, conversion, output of
    the reflectance raster) raises, or it is followed by exactly three
    events, the announcement of the stage, the debugger and the print of
    [n_water], and then by the NameError of [n_glinted]; whatever the later
    stages would do, none of it happens. *)
Theorem process_file_stops_at_n_glinted :
  forall (X Z_ loc_out loc : string) (coor_sys d_t Rrs_write : Z),
    (d_t > 0)%Z ->
    process_file georef geotiffread read_xml rayleigh_terms rayleigh zeta_of
      coefficients geotiffwrite after_sampling depth_stage
      classification_stage
      X Z_ loc_out loc coor_sys d_t Rrs_write =
    match prologue georef geotiffread read_xml rayleigh_terms rayleigh
            zeta_of coefficients geotiffwrite
            X Z_ loc_out loc coor_sys Rrs_write with
    | (tr, Ok sc) =>
        ((tr ++ [ EvPrint "Running DT and/or rrs conversion..." [];
                  EvDebugger;
                  EvPrint "n_water" [VInt 0] ])%list,
         Raise (NameError "n_glinted"))
    | (tr, Raise e) => (tr, Raise e)
    end
    /\ forall tr,
         process_file georef geotiffread read_xml rayleigh_terms rayleigh zeta_of
           coefficients geotiffwrite after_sampling depth_stage
           classification_stage
           X Z_ loc_out loc coor_sys d_t Rrs_write
         <> (tr, Ok tt).
Proof.
  intros X Z_ loc_out loc coor_sys d_t Rrs_write H.
  unfold process_file.
  destruct (the_prologue X Z_ loc_out loc coor_sys Rrs_write)
    as [tr [sc | e]]; unfold iobind.
  - rewrite (stages_raise _ _ H). split; [reflexivity | discriminate].
  - split; [reflexivity | discriminate].
Qed.

Lemma main_calls_process_file
      (input_tiff input_xml output_dir roi_name crd_sys dt_out rrs_out
       : string) :
  the_main input_tiff input_xml output_dir roi_name crd_sys dt_out rrs_out
  = iobind (lift (py_int dt_out)) (fun d_t =>
    iobind (lift (py_int rrs_out)) (fun Rrs_write =>
      the_process_file input_tiff input_xml output_dir roi_name
                       4326%Z d_t Rrs_write)).
Proof.
  unfold main. cbv zeta.
  change (String.eqb "EPSG:4326" "EPSG:4326") with true. cbv iota.
  now rewrite iobind_ret_l.
Qed.

(** C10 (what the code computes): [main] does with any coordinate-system
    argument what it does with "EPSG:4326": it reads the two selectors and
    calls [process_file] with the code 4326; the argument is overwritten on
    line 1118 before it is tested. *)
Theorem main_ignores_coordinate_system :
  forall input_tiff input_xml output_dir roi_name crd_sys dt_out rrs_out,
    the_main input_tiff input_xml output_dir roi_name crd_sys dt_out rrs_out
    = the_main input_tiff input_xml output_dir roi_name "EPSG:4326"
               dt_out rrs_out
    /\
    the_main input_tiff input_xml output_dir roi_name crd_sys dt_out rrs_out
    = iobind (lift (py_int dt_out)) (fun d_t =>
      iobind (lift (py_int rrs_out)) (fun Rrs_write =>
        the_process_file input_tiff input_xml output_dir roi_name
                         4326%Z d_t Rrs_write)).
Proof.
  intros. split.
  - reflexivity.
  - apply main_calls_process_file.
Qed.

End PipelineFacts.

(** *** A run on a 1 x 1 scene *)

Lemma tiny_prologue :
  Pipeline.prologue unit Pipeline.tiny_read Pipeline.tiny_xml float
    Pipeline.tiny_rayleigh (fun z => z) Pipeline.tiny_coefficients
    Pipeline.tiny_write
    "ortho/17DEC22164810-M1BS.tif" "raw/17DEC22164810-M1BS.xml" "out/" "RB"
    4326 1
  = ([ Pipeline.EvPrint "input size: {}" [Pipeline.VObject];
       Pipeline.EvPrint "szA: {}" [Pipeline.VObject];
       Pipeline.EvPrint "szB: {}" [Pipeline.VObject];
       Pipeline.EvPrint "sz : {}" [Pipeline.VObject];
       Pipeline.EvPrint "calculating Rrs..." [];
       Pipeline.EvPrint "ESd:{}TZ:{}TV:{}"
         [Pipeline.VObject; Pipeline.VObject; Pipeline.VObject];
       Pipeline.EvPrint "irr" [Pipeline.VObject];
       Pipeline.EvPrint "tau" [Pipeline.VObject];
       Pipeline.EvPrint "Pr " [Pipeline.VObject];
       Pipeline.EvPrint "rrd" [Pipeline.VObject];
       Pipeline.EvPrint "kf " [Pipeline.VObject];
       Pipeline.EvPrint "thetaplus\T" [Pipeline.VObject];
       Pipeline.EvPrint "C1" [Pipeline.VObject];
       Pipeline.EvPrint "C2" [Pipeline.VObject];
       Pipeline.EvPrint "  Rrs size: {}" [Pipeline.VObject];
       Pipeline.EvWrite "out/17DEC22164810-M1BS_RB_Rrs.tif" ],
     Ok (Pipeline.mkScene
           [[[0.05; 0.05; 0.05; 0.05; 0.05; 0.05; 0.05; 0.05]]]%float
           tt 1%nat 1%nat 0.5%float)).
Proof.
  unfold Pipeline.prologue, Pipeline.tiny_xml, Pipeline.lift.
  unfold Pipeline.iobind at 3.
  rewrite scene_geometry_ok.
  vm_compute. reflexivity.
Qed.

Lemma process_file_stops_at_n_glinted_witness :
  Pipeline.tiny_process_file (Pipeline.ret tt)
    "ortho/17DEC22164810-M1BS.tif" "raw/17DEC22164810-M1BS.xml" "out/" "RB"
    4326 1 1
  = ([ Pipeline.EvPrint "input size: {}" [Pipeline.VObject];
       Pipeline.EvPrint "szA: {}" [Pipeline.VObject];
       Pipeline.EvPrint "szB: {}" [Pipeline.VObject];
       Pipeline.EvPrint "sz : {}" [Pipeline.VObject];
       Pipeline.EvPrint "calculating Rrs..." [];
       Pipeline.EvPrint "ESd:{}TZ:{}TV:{}"
         [Pipeline.VObject; Pipeline.VObject; Pipeline.VObject];
       Pipeline.EvPrint "irr" [Pipeline.VObject];
       Pipeline.EvPrint "tau" [Pipeline.VObject];
       Pipeline.EvPrint "Pr " [Pipeline.VObject];
       Pipeline.EvPrint "rrd" [Pipeline.VObject];
       Pipeline.EvPrint "kf " [Pipeline.VObject];
       Pipeline.EvPrint "thetaplus\T" [Pipeline.VObject];
       Pipeline.EvPrint "C1" [Pipeline.VObject];
       Pipeline.EvPrint "C2" [Pipeline.VObject];
       Pipeline.EvPrint "  Rrs size: {}" [Pipeline.VObject];
       Pipeline.EvWrite "out/17DEC22164810-M1BS_RB_Rrs.tif";
       Pipeline.EvPrint "Running DT and/or rrs conversion..." [];
       Pipeline.EvDebugger;
       Pipeline.EvPrint "n_water" [Pipeline.VInt 0] ],
     Raise (NameError "n_glinted")).
Proof.
  unfold Pipeline.tiny_process_file.
  rewrite (proj1 (process_file_stops_at_n_glinted unit Pipeline.tiny_read
                    Pipeline.tiny_xml float Pipeline.tiny_rayleigh
                    (fun z => z) Pipeline.tiny_coefficients
                    Pipeline.tiny_write
                    (fun _ _ => Pipeline.ret tt) (fun _ => Pipeline.ret tt)
                    (fun _ => Pipeline.ret tt)
                    "ortho/17DEC22164810-M1BS.tif"
                    "raw/17DEC22164810-M1BS.xml" "out/" "RB"
                    4326%Z 1%Z 1%Z ltac:(lia))).
  rewrite tiny_prologue. reflexivity.
Defined.

(** With the selector 0 and the coordinate system "EPSG:3857", [main]
    converts the scene and writes the reflectance raster. *)
Example main_accepts_epsg_3857 :
  Pipeline.tiny_main (Pipeline.ret tt)
    "ortho/17DEC22164810-M1BS.tif" "raw/17DEC22164810-M1BS.xml" "out/" "RB"
    "EPSG:3857" "0" "1"
  = (fst (Pipeline.prologue unit Pipeline.tiny_read Pipeline.tiny_xml float
            Pipeline.tiny_rayleigh (fun z => z) Pipeline.tiny_coefficients
            Pipeline.tiny_write
            "ortho/17DEC22164810-M1BS.tif" "raw/17DEC22164810-M1BS.xml"
            "out/" "RB" 4326 1),
     Ok tt)
  /\ In (Pipeline.EvWrite "out/17DEC22164810-M1BS_RB_Rrs.tif")
        (fst (Pipeline.tiny_main (Pipeline.ret tt)
                "ortho/17DEC22164810-M1BS.tif" "raw/17DEC22164810-M1BS.xml"
                "out/" "RB" "EPSG:3857" "0" "1")).
Proof.
  unfold Pipeline.tiny_main.
  rewrite main_calls_process_file.
  unfold Pipeline.process_file.
  change (Pipeline.lift (Pipeline.digit_int "0")) with (Pipeline.ret 0%Z).
  change (Pipeline.lift (Pipeline.digit_int "1")) with (Pipeline.ret 1%Z).
  rewrite !iobind_ret_l, tiny_prologue.
  split; [reflexivity |].
  vm_compute. intuition.
Qed.

(** The rejection the specification asks for does not hold of [main]. *)
Lemma main_does_not_reject_epsg_3857 :
  ~ Pipeline.rejects_other_coordinate_systems unit Pipeline.tiny_read
      Pipeline.tiny_xml float Pipeline.tiny_rayleigh (fun z => z)
      Pipeline.tiny_coefficients Pipeline.tiny_write
      (fun _ _ => Pipeline.ret tt) (fun _ => Pipeline.ret tt)
      (fun _ => Pipeline.ret tt) Pipeline.digit_int.
Proof.
  intros H.
  pose proof (proj1 main_accepts_epsg_3857) as E.
  unfold Pipeline.tiny_main in E.
  rewrite H in E by discriminate.
  discriminate E.
Qed.

(** ** Not-a-number in comparisons and sums *)

Section FloatFacts.

Local Open Scope float_scope.

Lemma Prim2SF_inj (x y : float) : Prim2SF x = Prim2SF y -> x = y.
Proof.
  intros H. rewrite <- (SF2Prim_Prim2SF x), <- (SF2Prim_Prim2SF y).
  now rewrite H.
Qed.

Lemma ltb_nan_l (x : float) : (nan <? x) = false.
Proof.
  rewrite ltb_spec. change (Prim2SF nan) with S754_nan.
  reflexivity.
Qed.

Lemma ltb_nan_r (x : float) : (x <? nan) = false.
Proof.
  rewrite ltb_spec. change (Prim2SF nan) with S754_nan.
  unfold SFltb, SFcompare. now destruct (Prim2SF x) as [| | | ? ? ?].
Qed.

Lemma add_nan_l (x : float) : nan + x = nan.
Proof.
  apply Prim2SF_inj. rewrite add_spec.
  change (Prim2SF nan) with S754_nan. reflexivity.
Qed.

Lemma add_nan_r (x : float) : x + nan = nan.
Proof.
  apply Prim2SF_inj. rewrite add_spec.
  change (Prim2SF nan) with S754_nan.
  unfold SF64add, SFadd. now destruct (Prim2SF x) as [| [] | | ? ? ?].
Qed.

Lemma div_nan_l (x : float) : nan / x = nan.
Proof.
  apply Prim2SF_inj. rewrite div_spec.
  change (Prim2SF nan) with S754_nan. reflexivity.
Qed.

Lemma sum_from_nan (l : list float) : fold_left PrimFloat.add l nan = nan.
Proof.
  induction l as [| x l IH]; simpl; [reflexivity |].
  now rewrite add_nan_l.
Qed.

End FloatFacts.

(** ** Scene statistics *)

Section StatisticsFacts.

Import Statistics.
Local Open Scope float_scope.

Lemma np_mean_from_nan (l : list float) : np_mean (nan :: l) = nan.
Proof.
  unfold np_mean. cbn [fold_left].
  now rewrite add_nan_r, sum_from_nan, div_nan_l.
Qed.

(** X1 - lines 643-645: the mean of the water sums is never a number.  The
    statement of line 644 replaces the first sum with a not-a-number, so
    the mean of a non-empty list is a not-a-number; on an empty list the
    statement is an IndexError. *)
Theorem water_sum_mean_is_never_a_number :
  forall sum_water_rrs : list float,
    (sum_water_rrs = [] /\
     water_sum_mean sum_water_rrs = Raise IndexError) \/
    (sum_water_rrs <> [] /\ water_sum_mean sum_water_rrs = Ok nan).
Proof.
  intros [| x l].
  - left. split; reflexivity.
  - right. split; [discriminate |].
    unfold water_sum_mean, mask_zero_sums. cbn [set_nth bind].
    now rewrite np_mean_from_nan.
Qed.

Lemma nth_of_nans (row : list float) (c : nat) :
  nth c (map (fun _ : float => nan) row) nan = nan.
Proof.
  revert c. induction row as [| x row IH]; intros [| c]; simpl; auto.
Qed.

Lemma positive_minimum_unfolds (water : plane) (c : nat) :
  filter (fun i => 0 <? i) (column (mask_unset_rows water) c)
  = positive_values_of_set_rows water c.
Proof.
  unfold column, mask_unset_rows, positive_values_of_set_rows.
  induction water as [| row water IH]; [reflexivity |].
  cbn [map filter]. rewrite IH.
  destruct (nth 0 row nan =? 0); cbn [negb andb].
  - now rewrite nth_of_nans, ltb_nan_r.
  - destruct (0 <? nth c row nan); reflexivity.
Qed.

Lemma min_step_in (l : list float) :
  forall x, In (fold_left (fun m y => if y <? m then y else m) l x) (x :: l).
Proof.
  induction l as [| y l IH]; intros x; cbn [fold_left].
  - now left.
  - destruct (IH (if y <? x then y else x)) as [H | H].
    + destruct (y <? x); rewrite <- H; [right; now left | now left].
    + right; now right.
Qed.

Lemma py_min_in (l : list float) (m : float) :
  py_min l = Ok m -> In m l.
Proof.
  destruct l as [| x l]; [discriminate |].
  intros H. injection H as <-. apply min_step_in.
Qed.

(** X2 - lines 535-541: the positive minimum of a near-infrared column is
    drawn from the rows of the water table whose first value is not 0 and
    whose value in the column is positive; it is one of those values, hence
    positive; and when there is no such row, as in a table that was never
    written to, it is a ValueError. *)
Theorem positive_minimum_of_water_table :
  forall (water : plane) (c : nat),
    positive_minimum water c = py_min (positive_values_of_set_rows water c) /\
    (forall m, positive_minimum water c = Ok m ->
               In m (positive_values_of_set_rows water c) /\
               (0 <? m) = true) /\
    (positive_values_of_set_rows water c = [] ->
     positive_minimum water c
     = Raise (ValueError "min() arg is an empty sequence")) /\
    (forall n, positive_minimum (zeros n 9) c
               = Raise (ValueError "min() arg is an empty sequence")).
Proof.
  intros water c.
  assert (E : forall w, positive_minimum w c
                        = py_min (positive_values_of_set_rows w c)).
  { intros w. unfold positive_minimum. now rewrite positive_minimum_unfolds. }
  split; [apply E |]. split; [| split].
  - intros m H. rewrite E in H. apply py_min_in in H.
    split; [exact H |].
    unfold positive_values_of_set_rows in H.
    apply in_map_iff in H. destruct H as [row [<- Hrow]].
    apply filter_In in Hrow. destruct Hrow as [_ Hrow].
    now apply andb_prop in Hrow.
  - intros H. now rewrite E, H.
  - intros n. rewrite E.
    assert (Hn : positive_values_of_set_rows (zeros n 9) c = []).
    { unfold positive_values_of_set_rows, zeros.
      induction n as [| n IH]; [reflexivity |].
      cbn [repeat filter]. exact IH. }
    now rewrite Hn.
Qed.

End StatisticsFacts.

(** ** Decision tree *)

Section ClassifierFacts.

Import Classifier.
Local Open Scope float_scope.

Variable BW_is_1 : result bool.
Variable th : thresholds.
Variable prepare_water : pixel -> result pixel.
Variable prepare_fallback : pixel -> result pixel.

Local Ltac split_ifs :=
  repeat match goal with
         | |- context [if ?c then _ else _] => destruct c
         end.

Lemma sand_mud_complex_codes (px : pixel) (c : Z) :
  sand_mud_complex BW_is_1 th px = Ok c -> In c [0; 11; 21; 22; 31]%Z.
Proof.
  unfold sand_mud_complex. destruct BW_is_1 as [[] |]; cbn [bind];
    split_ifs; intros H; try discriminate H; injection H as <-;
    simpl; tauto.
Qed.

Lemma mud_developed_codes (px : pixel) (c : Z) :
  mud_developed BW_is_1 px = Ok c -> In c [11; 22]%Z.
Proof.
  unfold mud_developed. destruct BW_is_1 as [[] |]; cbn [bind];
    intros H; try discriminate H; injection H as <-; simpl; tauto.
Qed.

Lemma vegetation_complex_codes (px : pixel) :
  In (vegetation_complex th px) [0; 30; 31; 32; 33]%Z.
Proof.
  unfold vegetation_complex, wetland_or_upland_1, wetland_or_upland_2.
  split_ifs; simpl; tauto.
Qed.

Lemma water_split_codes (px : pixel) :
  In (water_split th px) [0; 51; 52; 53; 54; 55]%Z.
Proof.
  unfold water_split. split_ifs; simpl; tauto.
Qed.

Lemma fallback_split_codes (px : pixel) :
  In (fallback_split th px) [0; 51; 52; 53; 54; 55]%Z.
Proof.
  unfold fallback_split. split_ifs; simpl; tauto.
Qed.

(** X3 - lines 739-1064: a pixel that is classified gets one of the
    thirteen class codes, and each first-level branch gives codes of its
    own family only: 0, 11, 21, 22, 31 for the sand and mud complex, 11 and
    22 for the mud and developed branch, 0 and 30 to 33 for vegetation, 0
    and 51 to 55 for the two water branches. *)
Theorem classify_gives_a_class_code :
  forall (px : pixel) (c : Z),
    classify BW_is_1 th prepare_water prepare_fallback px = Ok c ->
    In c class_codes /\
    (test_sand_mud px = true -> In c [0; 11; 21; 22; 31]%Z) /\
    (test_sand_mud px = false -> test_mud_developed px = true ->
     In c [11; 22]%Z) /\
    (test_sand_mud px = false -> test_mud_developed px = false ->
     test_ndvi px = true -> In c [0; 30; 31; 32; 33]%Z) /\
    (test_sand_mud px = false -> test_mud_developed px = false ->
     test_ndvi px = false -> In c [0; 51; 52; 53; 54; 55]%Z).
Proof.
  intros px c. unfold classify.
  destruct (test_sand_mud px);
    [| destruct (test_mud_developed px);
       [| destruct (test_ndvi px); [| destruct (test_water px)]]];
    intros H.
  - apply sand_mud_complex_codes in H.
    split; [simpl in *; tauto |].
    repeat split; try discriminate; intros; exact H.
  - apply mud_developed_codes in H.
    split; [simpl in *; tauto |].
    repeat split; try discriminate; intros; exact H.
  - injection H as <-.
    pose proof (vegetation_complex_codes px) as H.
    split; [simpl in *; tauto |].
    repeat split; try discriminate; intros; exact H.
  - destruct (prepare_water px) as [px' |]; [| discriminate H].
    injection H as <-.
    pose proof (water_split_codes px') as H.
    split; [simpl in *; tauto |].
    repeat split; try discriminate; intros; exact H.
  - destruct (prepare_fallback px) as [px' |]; [| discriminate H].
    injection H as <-.
    pose proof (fallback_split_codes px') as H.
    split; [simpl in *; tauto |].
    repeat split; try discriminate; intros; exact H.
Qed.

(** X4 - lines 818-836 against 840-859, and 956-996 against 1025-1064:
    the two copies of the wetland/upland sub-tree compute the same class,
    and so do the split of the water branch and that of the fallback
    branch. *)
Theorem duplicated_subtrees_agree :
  forall px : pixel,
    wetland_or_upland_1 px = wetland_or_upland_2 px /\
    water_split th px = fallback_split th px.
Proof.
  intros px. split; reflexivity.
Qed.

End ClassifierFacts.

Lemma water_split_without_mean (th : Classifier.thresholds) (px : pixel) :
  Classifier.avg_water_sum th = nan ->
  Classifier.water_split th px <> 52%Z /\
  Classifier.fallback_split th px <> 52%Z.
Proof.
  intros E. unfold Classifier.water_split, Classifier.fallback_split.
  rewrite E, ltb_nan_l. cbn [andb].
  split;
    repeat match goal with
           | |- context [if ?c then _ else _] => destruct c
           end; discriminate.
Qed.

(** X5 - lines 643-645 with 970-974 and 1039-1043: whatever sums the
    sampler gathered, a threshold taken from their mean lets no pixel into
    class 52 (soft bottom): the mean is a not-a-number and the comparison
    with it fails. *)
Theorem class_52_is_never_assigned :
  forall (sum_water_rrs : list float) (m : float)
         (th : Classifier.thresholds) (px : pixel),
    Statistics.water_sum_mean sum_water_rrs = Ok m ->
    Classifier.avg_water_sum th = m ->
    Classifier.water_split th px <> 52%Z /\
    Classifier.fallback_split th px <> 52%Z.
Proof.
  intros l m th px Hm Hth.
  apply water_split_without_mean.
  destruct l as [| x l]; [discriminate Hm |].
  unfold Statistics.water_sum_mean, Statistics.mask_zero_sums in Hm.
  cbn [set_nth bind] in Hm. rewrite np_mean_from_nan in Hm.
  injection Hm as <-. exact Hth.
Qed.

Lemma class_52_is_never_assigned_witness :
  Classifier.water_split
    (Classifier.mkThresholds 0.3 0.1 0.3 nan)
    [0.02; 0.03; 0.06; 0.05; 0.04; 0.03; 0.02; 0.01]%float <> 52%Z /\
  Classifier.fallback_split
    (Classifier.mkThresholds 0.3 0.1 0.3 nan)
    [0.02; 0.03; 0.06; 0.05; 0.04; 0.03; 0.02; 0.01]%float <> 52%Z.
Proof.
  exact (class_52_is_never_assigned [0.08; 0.09]%float nan
           (Classifier.mkThresholds 0.3 0.1 0.3 nan)
           [0.02; 0.03; 0.06; 0.05; 0.04; 0.03; 0.02; 0.01]%float
           eq_refl eq_refl).
Defined.

(** ** The loops of the classification stage *)

Section ClassificationLoopFacts.

Import Classifier.

Lemma set_code_lookup (m : code_map) (j k : nat) (c : Z) (m' : code_map) :
  set_code m j k c = Ok m' ->
  forall j' k',
    code_at m' j' k' =
    if ((j' =? j) && (k' =? k))%nat then Some c else code_at m j' k'.
Proof.
  unfold set_code, code_at. intros H j' k'.
  destruct (nth_error m j) as [row |] eqn:Erow; [| discriminate H].
  destruct (set_nth row k c) as [row' |] eqn:Eset; [| discriminate H].
  simpl in H. rewrite (set_nth_lookup _ _ _ _ H).
  destruct (Nat.eqb_spec j' j) as [-> | Hj]; simpl.
  - rewrite (set_nth_lookup _ _ _ _ Eset). rewrite Erow.
    destruct (k' =? k)%nat; reflexivity.
  - reflexivity.
Qed.

Variable classify_at : nat -> nat -> pixel -> result Z.
Variable Rrs : raster.

Lemma classify_cell_frame (j k : nat) (m m' : code_map) :
  classify_cell classify_at Rrs j k m = Ok m' ->
  forall j' k', (j' <> j \/ k' <> k) -> code_at m' j' k' = code_at m j' k'.
Proof.
  unfold classify_cell. intros H j' k' Hne.
  destruct (Sampler.classifier_guard _).
  - destruct (classify_at j k _) as [c |]; [| discriminate H].
    simpl in H. rewrite (set_code_lookup _ _ _ _ _ H).
    destruct (Nat.eqb_spec j' j) as [-> | ?];
      destruct (Nat.eqb_spec k' k) as [-> | ?]; simpl; try reflexivity.
    destruct Hne; contradiction.
  - now injection H as <-.
Qed.

Lemma classify_row_frame (j : nat) (ks : list nat) :
  forall m m',
    classify_row classify_at Rrs j ks m = Ok m' ->
    forall j' k', (j' <> j \/ ~ In k' ks) ->
                  code_at m' j' k' = code_at m j' k'.
Proof.
  induction ks as [| k ks IH]; intros m m' H j' k' Hne; simpl in H.
  - now injection H as <-.
  - destruct (classify_cell classify_at Rrs j k m) as [m1 |] eqn:E;
      [| discriminate H].
    simpl in H. rewrite (IH _ _ H).
    + apply (classify_cell_frame _ _ _ _ E).
      destruct Hne as [Hj | Hk]; [now left | right].
      intros ->. apply Hk. now left.
    + destruct Hne as [Hj | Hk]; [now left | right].
      intros Hin. apply Hk. now right.
Qed.

Lemma range_from_1_spec (n k : nat) :
  In k (range_from_1 n) <-> (1 <= k < n)%nat.
Proof.
  unfold range_from_1. rewrite in_seq. lia.
Qed.

(** X6 - lines 735-737: the loops of the classification stage start at
    index 1.  A pass over a row writes no class in column 0 of that row and
    leaves every other row as it was; and row 0 is not among the rows the
    stage passes over. *)
Theorem first_row_and_column_are_never_classified :
  forall (j cols : nat) (m m' : code_map),
    classify_row classify_at Rrs j (range_from_1 cols) m = Ok m' ->
    code_at m' j 0 = code_at m j 0 /\
    (forall j' k, j' <> j -> code_at m' j' k = code_at m j' k) /\
    (forall rows, ~ In 0%nat (range_from_1 rows)).
Proof.
  intros j cols m m' H. split; [| split].
  - apply (classify_row_frame _ _ _ _ H). right.
    rewrite range_from_1_spec. lia.
  - intros j' k Hj. apply (classify_row_frame _ _ _ _ H). now left.
  - intros rows. rewrite range_from_1_spec. lia.
Qed.

Variable outputs : bool -> code_map -> result code_map.

Lemma after_row_raises (m : code_map) :
  after_row outputs m =
  Raise (TypeError
           "'>' not supported between instances of 'type' and 'int'").
Proof. reflexivity. Qed.

(** X7 - lines 735 and 1091-1109: the classification stage writes no
    output.  The statements that write the map are indented under the loop
    over the rows and start with the test [filter > 0], a TypeError since
    the function binds no [filter]: on an image of two rows or more the
    stage raises in its first pass (at a pixel of row 1 or at that test);
    on an image of one row or none the loop body never runs and the map is
    returned as it was.  What the output statements would do changes
    nothing. *)
Theorem classification_writes_no_output :
  forall (rows cols : nat) (m : code_map),
    ((rows <= 1)%nat ->
     classification classify_at Rrs outputs rows cols m = Ok m) /\
    ((2 <= rows)%nat ->
     exists e,
       classification classify_at Rrs outputs rows cols m = Raise e) /\
    (forall outputs',
       classification classify_at Rrs outputs' rows cols m
       = classification classify_at Rrs outputs rows cols m).
Proof.
  intros rows cols m. unfold classification, range_from_1.
  split; [| split].
  - intros H. replace (rows - 1)%nat with 0%nat by lia. reflexivity.
  - intros H. replace (rows - 1)%nat with (S (rows - 2)) by lia.
    cbn [seq classify_rows].
    destruct (classify_row classify_at Rrs 1 (range_from_1 cols) m)
      as [m1 |]; cbn [bind]; [rewrite after_row_raises |];
      eexists; reflexivity.
  - intros outputs'. destruct (rows - 1)%nat as [| n]; [reflexivity |].
    cbn [seq classify_rows].
    destruct (classify_row classify_at Rrs 1 (range_from_1 cols) m)
      as [m1 |]; reflexivity.
Qed.

End ClassificationLoopFacts.

Lemma first_row_and_column_are_never_classified_witness :
  Classifier.code_at [[7; 7]; [7; 0]]%Z 1 0 = Some 7%Z.
Proof.
  exact (eq_trans
           (proj1 (first_row_and_column_are_never_classified
                     (fun _ _ _ => Ok 0%Z)
                     [[Sampler.calm_water; Sampler.calm_water];
                      [Sampler.calm_water; Sampler.calm_water]]
                     1 2 [[7; 7]; [7; 7]]%Z [[7; 7]; [7; 0]]%Z eq_refl))
           eq_refl).
Defined.

(** ** More on [process_file] and [main] *)

Section PipelineMoreFacts.

Import Pipeline.
Local Open Scope string_scope.

Variable georef : Type.
Variable geotiffread : string -> result (raster * georef).
Variable read_xml : string -> result metadata.
Variable rayleigh_terms : Type.
Variable rayleigh : metadata -> result rayleigh_terms.
Variable zeta_of : rayleigh_terms -> float.
Variable coefficients :
  metadata -> rayleigh_terms -> result (list float * list float).
Variable geotiffwrite : string -> raster -> georef -> Z -> result unit.
Variable after_sampling : scene georef -> Sampler.state -> io unit.
Variable depth_stage : scene georef -> io unit.
Variable classification_stage : scene georef -> io unit.
Variable py_int : string -> result Z.

Lemma stages_do_nothing (d_t : Z) (sc : scene georef) :
  (d_t <= 0)%Z ->
  stages georef after_sampling depth_stage classification_stage d_t sc
  = ([], Ok tt).
Proof.
  intros H. unfold stages.
  replace (d_t >? 0)%Z with false
    by (symmetry; rewrite Z.gtb_ltb; now apply Z.ltb_ge).
  replace (d_t =? 1)%Z with false by (symmetry; apply Z.eqb_neq; lia).
  replace (d_t =? 2)%Z with false by (symmetry; apply Z.eqb_neq; lia).
  reflexivity.
Qed.

(** X8 - lines 361, 666 and 732: with a pipeline-depth selector of 0 or
    below, [process_file] does what its prologue does and nothing more: the
    same events, the same exception if there is one, and a normal return
    otherwise; no sampling, no debugger, no later stage. *)
Theorem process_file_ends_after_conversion :
  forall (X Z_ loc_out loc : string) (coor_sys d_t Rrs_write : Z),
    (d_t <= 0)%Z ->
    process_file georef geotiffread read_xml rayleigh_terms rayleigh zeta_of
      coefficients geotiffwrite after_sampling depth_stage
      classification_stage X Z_ loc_out loc coor_sys d_t Rrs_write =
    match prologue georef geotiffread read_xml rayleigh_terms rayleigh
            zeta_of coefficients geotiffwrite
            X Z_ loc_out loc coor_sys Rrs_write with
    | (tr, Ok _) => (tr, Ok tt)
    | (tr, Raise e) => (tr, Raise e)
    end.
Proof.
  intros X Z_ loc_out loc coor_sys d_t Rrs_write H.
  unfold process_file.
  destruct (prologue georef geotiffread read_xml rayleigh_terms rayleigh
              zeta_of coefficients geotiffwrite
              X Z_ loc_out loc coor_sys Rrs_write) as [tr [sc | e]];
    unfold iobind; [| reflexivity].
  rewrite (stages_do_nothing _ _ H). now rewrite app_nil_r.
Qed.

(** X9 - lines 356-359: the prologue writes a file only when [Rrs_write]
    is 1, and then, when nothing raised, the last thing it did was to write
    the reflectance raster to the output directory followed by the first
    18 characters of the image's file name, the region label and
    "_Rrs.tif". *)
Theorem reflectance_is_written_only_on_request :
  forall (X Z_ loc_out loc : string) (coor_sys Rrs_write : Z),
    let run := prologue georef geotiffread read_xml rayleigh_terms rayleigh
                 zeta_of coefficients geotiffwrite
                 X Z_ loc_out loc coor_sys Rrs_write in
    (Rrs_write <> 1%Z -> forall p, ~ In (EvWrite p) (fst run)) /\
    (Rrs_write = 1%Z -> is_ok (snd run) = true ->
     exists tr,
       fst run =
       (tr ++ [EvWrite (loc_out ++ substring 0 18 (basename X)
                        ++ "_" ++ loc ++ "_Rrs.tif")])%list).
Proof.
  intros X Z_ loc_out loc coor_sys Rrs_write run. subst run. split.
  - intros Hw p.
    assert (E : (Rrs_write =? 1)%Z = false) by now apply Z.eqb_neq.
    unfold prologue. rewrite E.
    unfold lift, print, emit, ret, iobind.
    destruct (geotiffread X) as [[A R] |]; [| simpl; tauto].
    destruct (read_xml Z_) as [meta |]; [| simpl; intuition discriminate].
    rewrite scene_geometry_ok.
    destruct (rayleigh meta) as [terms |]; [| simpl; intuition discriminate].
    destruct (coefficients meta terms) as [C |];
      simpl; intuition discriminate.
  - intros -> Hok. revert Hok.
    unfold prologue. change (1 =? 1)%Z with true.
    unfold lift, print, emit, ret, iobind.
    destruct (geotiffread X) as [[A R] |]; [| discriminate].
    destruct (read_xml Z_) as [meta |]; [| discriminate].
    rewrite scene_geometry_ok.
    destruct (rayleigh meta) as [terms |]; [| discriminate].
    destruct (coefficients meta terms) as [C |]; [| discriminate].
    cbn [fst snd].
    destruct (geotiffwrite _ _ _ _) as [[] |]; [| discriminate].
    intros _. cbn [fst app].
    match goal with
    | |- exists tr, ?l = _ => exists (removelast l)
    end.
    reflexivity.
Qed.

(** X10 - lines 272-274 and 316: the sizes the later loops run to are
    within the image, and the reflectance raster has the rows and the
    columns of the image read. *)
Theorem scene_sizes_are_within_the_image :
  forall (X Z_ loc_out loc : string) (coor_sys Rrs_write : Z)
         (tr : list event) (sc : scene georef),
    prologue georef geotiffread read_xml rayleigh_terms rayleigh
      zeta_of coefficients geotiffwrite
      X Z_ loc_out loc coor_sys Rrs_write = (tr, Ok sc) ->
    exists A R0,
      geotiffread X = Ok (A, R0) /\
      map (@List.length pixel) (Rrs sc) = map (@List.length pixel) A /\
      (sz0 sc <= List.length (Rrs sc))%nat /\
      (sz1 sc <= List.length (hd [] (Rrs sc)))%nat.
Proof.
  intros X Z_ loc_out loc coor_sys Rrs_write tr sc.
  unfold prologue, lift, print, emit, ret, iobind.
  destruct (geotiffread X) as [[A R0] |]; [| discriminate].
  destruct (read_xml Z_) as [meta |]; [| discriminate].
  rewrite scene_geometry_ok.
  destruct (rayleigh meta) as [terms |]; [| discriminate].
  destruct (coefficients meta terms) as [C |]; [| discriminate].
  cbn [fst snd].
  assert (Hshape : forall C1 C2,
             (Nat.min (List.length A) (NUMROWS meta)
              <= List.length (Converter.reflectance A C1 C2))%nat /\
             (Nat.min (List.length (hd [] A)) (NUMCOLUMNS meta)
              <= List.length (hd [] (Converter.reflectance A C1 C2)))%nat).
  { intros C1 C2. unfold Converter.reflectance. split.
    - rewrite length_map. apply Nat.le_min_l.
    - destruct A as [| row A']; cbn [hd map].
      + apply Nat.le_min_l.
      + rewrite length_map. apply Nat.le_min_l. }
  destruct (Rrs_write =? 1)%Z.
  - destruct (geotiffwrite _ _ _ _) as [[] |]; [| discriminate].
    intros H. injection H as _ <-. cbn [Rrs sz0 sz1].
    exists A, R0. split; [reflexivity |].
    split; [apply reflectance_shape | apply Hshape].
  - intros H. injection H as _ <-. cbn [Rrs sz0 sz1].
    exists A, R0. split; [reflexivity |].
    split; [apply reflectance_shape | apply Hshape].
Qed.

(** X11 - lines 1127-1130: [main] converts the two selectors before it
    calls [process_file]; when either is not an integer literal it raises
    what [int] raises, with no file read and nothing printed. *)
Theorem main_checks_selectors_first :
  forall input_tiff input_xml output_dir roi_name crd_sys dt_out rrs_out e,
    py_int dt_out = Raise e \/
    (is_ok (py_int dt_out) = true /\ py_int rrs_out = Raise e) ->
    main georef geotiffread read_xml rayleigh_terms rayleigh zeta_of
      coefficients geotiffwrite after_sampling depth_stage
      classification_stage py_int
      input_tiff input_xml output_dir roi_name crd_sys dt_out rrs_out
    = ([], Raise e).
Proof.
  intros input_tiff input_xml output_dir roi_name crd_sys dt_out rrs_out e H.
  rewrite main_calls_process_file. unfold lift, iobind.
  destruct H as [-> | [Hok ->]]; [reflexivity |].
  destruct (py_int dt_out); [reflexivity | discriminate Hok].
Qed.

End PipelineMoreFacts.

Lemma process_file_ends_after_conversion_witness :
  snd (Pipeline.tiny_process_file (Pipeline.ret tt)
         "ortho/17DEC22164810-M1BS.tif" "raw/17DEC22164810-M1BS.xml"
         "out/" "RB" 4326 0 1) = Ok tt.
Proof.
  unfold Pipeline.tiny_process_file.
  rewrite (process_file_ends_after_conversion unit Pipeline.tiny_read
             Pipeline.tiny_xml float Pipeline.tiny_rayleigh
             (fun z => z) Pipeline.tiny_coefficients Pipeline.tiny_write
             (fun _ _ => Pipeline.ret tt) (fun _ => Pipeline.ret tt)
             (fun _ => Pipeline.ret tt)
             "ortho/17DEC22164810-M1BS.tif" "raw/17DEC22164810-M1BS.xml"
             "out/" "RB" 4326%Z 0%Z 1%Z ltac:(lia)).
  rewrite tiny_prologue. reflexivity.
Defined.

Lemma scene_sizes_are_within_the_image_witness :
  exists A R0,
    Pipeline.tiny_read "ortho/17DEC22164810-M1BS.tif" = Ok (A, R0) /\
    map (@List.length pixel)
        [[[0.05; 0.05; 0.05; 0.05; 0.05; 0.05; 0.05; 0.05]]]%float
    = map (@List.length pixel) A /\
    (1 <= 1)%nat /\ (1 <= 1)%nat.
Proof.
  exact (scene_sizes_are_within_the_image unit Pipeline.tiny_read
           Pipeline.tiny_xml float Pipeline.tiny_rayleigh
           (fun z => z) Pipeline.tiny_coefficients Pipeline.tiny_write
           "ortho/17DEC22164810-M1BS.tif" "raw/17DEC22164810-M1BS.xml"
           "out/" "RB" 4326%Z 1%Z _ _ tiny_prologue).
Defined.

Lemma main_checks_selectors_first_witness :
  Pipeline.tiny_main (Pipeline.ret tt)
    "ortho/17DEC22164810-M1BS.tif" "raw/17DEC22164810-M1BS.xml" "out/" "RB"
    "EPSG:4326" "two" "1"
  = ([], Raise (ValueError "invalid literal for int() with base 10")).
Proof.
  exact (main_checks_selectors_first unit Pipeline.tiny_read
           Pipeline.tiny_xml float Pipeline.tiny_rayleigh
           (fun z => z) Pipeline.tiny_coefficients Pipeline.tiny_write
           (fun _ _ => Pipeline.ret tt) (fun _ => Pipeline.ret tt)
           (fun _ => Pipeline.ret tt) Pipeline.digit_int
           "ortho/17DEC22164810-M1BS.tif" "raw/17DEC22164810-M1BS.xml"
           "out/" "RB" "EPSG:4326" "two" "1" _ (or_introl eq_refl)).
Defined.

Lemma classify_gives_a_class_code_witness :
  In 51%Z Classifier.class_codes.
Proof.
  exact (proj1 (classify_gives_a_class_code
                  (Ok false) (Classifier.mkThresholds 0.3 0.1 0.3 nan)
                  (fun px => Ok px) (fun px => Ok px)
                  Sampler.calm_water 51%Z eq_refl)).
Defined.

(** ** What the later statements find after the sampling pass *)

Section AfterThePassFacts.

Local Open Scope float_scope.

Variables zeta G : float.

Lemma positive_minimum_of_zeros (n c : nat) :
  Statistics.positive_minimum (zeros n 9) c
  = Raise (ValueError "min() arg is an empty sequence").
Proof.
  unfold Statistics.positive_minimum.
  rewrite positive_minimum_unfolds.
  assert (Hn : Statistics.positive_values_of_set_rows (zeros n 9) c = []).
  { unfold Statistics.positive_values_of_set_rows, zeros.
    induction n as [| n IH]; [reflexivity |].
    cbn [repeat filter]. exact IH. }
  now rewrite Hn.
Qed.

(** X12 - lines 380-541, 545 and 637-645: for every image, the state the
    sampling pass leaves makes the statements that follow it fail or
    degenerate.  The water table holds no positive near-infrared value, so
    both positive minima are a ValueError; no water sum was gathered, so
    line 644 is an IndexError; the means of the sand/developed sums and of
    the second vegetation sums are not-a-number and that of the first
    vegetation sums is 0; and the glint test [v > 0.25 * u] fails. *)
Theorem statements_after_the_pass_fail :
  forall (Rrs : raster) (sz0 sz1 : nat),
    let s := snd (Sampler.sampling_pass zeta G Rrs sz0 sz1
                    (Sampler.init (sz0 * sz1))) in
    Statistics.positive_minimum (Sampler.water s) 6
    = Raise (ValueError "min() arg is an empty sequence") /\
    Statistics.positive_minimum (Sampler.water s) 7
    = Raise (ValueError "min() arg is an empty sequence") /\
    SceneStatistics.scene_statistics s = Raise IndexError /\
    Statistics.np_mean (Sampler.sum_SD s) = nan /\
    Statistics.np_mean (Sampler.sum_veg2 s) = nan /\
    Statistics.np_mean (Sampler.sum_veg s) = 0 /\
    Glint.exceeds_quarter (Sampler.u s) (Sampler.v s) = false.
Proof.
  intros Rrs sz0 sz1 s. subst s. rewrite sampling_pass_skips.
  cbn [snd Sampler.init Sampler.water Sampler.u Sampler.v Sampler.sum_SD
       Sampler.sum_veg Sampler.sum_veg2].
  repeat split; try apply positive_minimum_of_zeros; reflexivity.
Qed.

End AfterThePassFacts.

(** ** Cloud-mask threshold *)

Section CloudMaskFacts.

Import PyErrors CloudMask.
Local Open Scope float_scope.

Lemma max_step_in (l : list float) :
  forall x, In (fold_left (fun m y => if m <? y then y else m) l x) (x :: l).
Proof.
  induction l as [| y l IH]; intros x; cbn [fold_left].
  - now left.
  - destruct (IH (if x <? y then y else x)) as [H | H].
    + destruct (x <? y); rewrite <- H; [right; now left | now left].
    + right; now right.
Qed.

Lemma py_max_in (l : list float) (m : float) :
  Statistics.py_max l = Ok m -> In m l.
Proof.
  destruct l as [| x l]; [discriminate |].
  intros H. injection H as <-. apply max_step_in.
Qed.

(** X13 - lines 647-657: the cloud-mask threshold is never obtained when
    the cloud cover is positive, since [list.sort] returns [None] and line
    654 calls it; with no cloud cover the threshold is 1 above a recorded
    band-0 value, or a ValueError when none was recorded, which is the case
    after the sampling pass of every image. *)
Theorem cloud_threshold_is_never_obtained_under_clouds :
  forall (num_pix : nat) (cl_cov : float) (c_val : list float),
    ((0 <? cl_cov) = true ->
     exists e, cloud_threshold num_pix cl_cov c_val = Error e) /\
    ((0 <? cl_cov) = false ->
     forall t, cloud_threshold num_pix cl_cov c_val = Value t ->
               exists m, In m c_val /\ t = m + 1) /\
    (forall zeta G Rrs sz0 sz1,
       let s := snd (Sampler.sampling_pass zeta G Rrs sz0 sz1
                       (Sampler.init (sz0 * sz1))) in
       exists e,
         cloud_threshold (Sampler.num_pix s) cl_cov (Sampler.c_val s)
         = Error e).
Proof.
  intros num_pix cl_cov c_val. split; [| split].
  - intros H. unfold cloud_threshold. rewrite H.
    destruct (py_round _) as [n | e]; cbn [and_then];
      eexists; reflexivity.
  - intros H t. unfold cloud_threshold. rewrite H.
    destruct (Statistics.py_max c_val) as [m |] eqn:E; cbn; [| discriminate].
    intros Ht. injection Ht as <-. exists m.
    split; [now apply py_max_in | reflexivity].
  - intros zeta G Rrs sz0 sz1 s. subst s. rewrite sampling_pass_skips.
    cbn [snd Sampler.init Sampler.num_pix Sampler.c_val].
    unfold cloud_threshold. destruct (0 <? cl_cov).
    + destruct (py_round _) as [n | e]; cbn [and_then];
        eexists; reflexivity.
    + eexists; reflexivity.
Qed.

End CloudMaskFacts.

(** ** Metadata *)

Section MetadataFacts.

Import PyErrors Metadata.
Local Open Scope string_scope.

Variable py_int : string -> result Z.
Variable py_float : string -> result float.
Variable strptime : string -> result Geometry.acquisition.

Lemma text_at_value (o : option element) (a : string) (x : option string) :
  text_at o a = Value x ->
  exists e, o = Some e /\ has_child e a.
Proof.
  unfold text_at, find_child, text, has_child.
  destruct o as [e |]; cbn [and_then]; [| discriminate].
  destruct (List.find _ (children_of e)) as [c |] eqn:E;
    [| intros H; discriminate H].
  intros _. exists e. split; [reflexivity |]. rewrite E. discriminate.
Qed.

Lemma text_at2_value (o : option element) (a b : string)
      (x : option string) :
  text_at2 o a b = Value x ->
  exists e c,
    o = Some e /\
    List.find (fun c => String.eqb (tag_of c) a) (children_of e) = Some c /\
    has_child c b.
Proof.
  unfold text_at2. destruct o as [e |]; [| discriminate].
  cbn [find_child and_then]. intros H.
  apply text_at_value in H. destruct H as [c [Hc Hb]].
  exists e, c. auto.
Qed.

Lemma and_then_value {A B : Type} (r : answer A) (k : A -> answer B)
      (b : B) :
  and_then r k = Value b -> exists a, r = Value a /\ k a = Value b.
Proof.
  destruct r as [a | e]; [| discriminate]. intros H. now exists a.
Qed.

Lemma for_all_value {A B : Type} (f : A -> answer B) (l : list A) :
  forall bs,
    for_all f l = Value bs ->
    List.length bs = List.length l /\
    forall a, In a l -> exists b, f a = Value b.
Proof.
  induction l as [| a l IH]; intros bs H; cbn [for_all] in H.
  - injection H as <-. split; [reflexivity | intros ? []].
  - apply and_then_value in H. destruct H as [b [Hb H]].
    apply and_then_value in H. destruct H as [bs' [Hbs H]].
    injection H as <-. destruct (IH _ Hbs) as [Hlen Hall].
    split; [simpl; now rewrite Hlen |].
    intros a' [<- | Hin]; [now exists b | now apply Hall].
Qed.

(** X15 - lines 82-125: [read_xml] returns only for a document that has
    every element it reads: an IMD element under the root, with NUMROWS,
    NUMCOLUMNS, the eight band elements, each with its ABSCALFACTOR, and
    an IMAGE element with the seven values of the acquisition; what it
    returns then holds a size of the form [rows, columns, 0] and eight
    calibration factors.  A document without IMD is an AttributeError. *)
Theorem read_xml_needs_every_element :
  forall (root : element),
    (forall f,
       read_xml py_int py_float strptime root = Value f ->
       exists imd image,
         List.find (fun c => String.eqb (tag_of c) "IMD") (children_of root)
         = Some imd /\
         List.find (fun c => String.eqb (tag_of c) "IMAGE") (children_of imd)
         = Some image /\
         has_child imd "NUMROWS" /\ has_child imd "NUMCOLUMNS" /\
         (forall band, In band band_tags ->
            exists e,
              List.find (fun c => String.eqb (tag_of c) band)
                        (children_of imd) = Some e /\
              has_child e "ABSCALFACTOR") /\
         (forall t, In t image_tags -> has_child image t) /\
         (exists rows cols, szB f = [rows; cols; 0%Z]) /\
         List.length (kf f) = 8%nat) /\
    (List.find (fun c => String.eqb (tag_of c) "IMD") (children_of root)
     = None ->
     read_xml py_int py_float strptime root
     = Error (AttributeError "'NoneType' object has no attribute 'find'")).
Proof.
  intros root. split.
  - intros f H. unfold read_xml in H. cbn [find_child and_then] in H.
    set (imd := List.find _ (children_of root)) in H.
    apply and_then_value in H. destruct H as [rows [Hrows H]].
    apply and_then_value in H. destruct H as [cols [Hcols H]].
    apply and_then_value in H. destruct H as [kfs [Hkf H]].
    apply and_then_value in H. destruct H as [aq_dt [Haq H]].
    apply and_then_value in H. destruct H as [v1 [H1 H]].
    apply and_then_value in H. destruct H as [v2 [H2 H]].
    apply and_then_value in H. destruct H as [v3 [H3 H]].
    apply and_then_value in H. destruct H as [v4 [H4 H]].
    apply and_then_value in H. destruct H as [v5 [H5 H]].
    apply and_then_value in H. destruct H as [v6 [H6 H]].
    injection H as <-.
    apply and_then_value in Hrows. destruct Hrows as [x [Hrows _]].
    apply text_at_value in Hrows. destruct Hrows as [e [Himd Hrows]].
    apply and_then_value in Hcols. destruct Hcols as [x' [Hcols _]].
    apply text_at_value in Hcols. destruct Hcols as [e' [Himd' Hcols]].
    rewrite Himd in Himd'. injection Himd' as <-.
    assert (Himage :
      forall tag (A : Type) (g : option string -> answer A) (v : A),
        and_then (text_at2 imd "IMAGE" tag) g = Value v ->
        exists image,
          List.find (fun c => String.eqb (tag_of c) "IMAGE") (children_of e)
          = Some image /\ has_child image tag).
    { intros tag A g v Hv.
      apply and_then_value in Hv. destruct Hv as [y [Hv _]].
      apply text_at2_value in Hv. destruct Hv as [e1 [c [He1 [Hc Ht]]]].
      rewrite Himd in He1. injection He1 as <-. now exists c. }
    destruct (Himage _ _ _ _ Haq) as [image [Him T0]].
    assert (Hsame :
      forall tag (A : Type) (g : option string -> answer A) (v : A),
        and_then (text_at2 imd "IMAGE" tag) g = Value v ->
        has_child image tag).
    { intros tag A g v Hv.
      destruct (Himage _ _ _ _ Hv) as [image' [Him' Ht]].
      rewrite Him in Him'. now injection Him' as <-. }
    exists e, image. split; [exact Himd |]. split; [exact Him |].
    split; [exact Hrows |]. split; [exact Hcols |].
    apply for_all_value in Hkf. destruct Hkf as [Hlen Hall].
    split; [| split; [| split]].
    + intros band Hin. destruct (Hall _ Hin) as [b Hb].
      apply and_then_value in Hb. destruct Hb as [y [Hb _]].
      apply text_at2_value in Hb. destruct Hb as [e1 [c [He1 [Hc Ht]]]].
      rewrite Himd in He1. injection He1 as <-. now exists c.
    + intros t Hin. simpl in Hin.
      destruct Hin as [<- | [<- | [<- | [<- | [<- | [<- | [<- | []]]]]]]];
        eauto.
    + cbn [szB]. eauto.
    + cbn [kf]. exact Hlen.
  - intros H. unfold read_xml. cbn [find_child and_then]. rewrite H.
    reflexivity.
Qed.

End MetadataFacts.

Lemma read_xml_needs_every_element_witness :
  exists rows cols,
    [1; 1; 0]%Z = [rows; cols; 0%Z].
Proof.
  destruct (proj1 (read_xml_needs_every_element
                     (fun _ => Ok 1%Z) (fun _ => Ok 1%float)
                     (fun _ => Ok Geometry.j2000) Metadata.sample_document)
                  _ eq_refl)
    as [imd [image [_ [_ [_ [_ [_ [_ [H _]]]]]]]]].
  exact H.
Defined.

(** ** Land pixels in the sampler *)

Section LandSampleFacts.

Import Sampler.
Local Open Scope float_scope.

Variables zeta G : float.

(** X16 - lines 386-423: a pixel that passes the sand/developed test or
    the vegetation test is sampled without an exception and without a
    change to the water table, its row pointer, the glint counter or the
    water sums.  A sand/developed pixel adds the sum of bands 5 and 6 to
    [sum_SD] and 1 to [b]; a vegetation pixel that fails the shadow filter
    adds nothing to the vegetation lists. *)
Theorem land_pixels_leave_the_water_table_alone :
  forall (px : pixel) (s : state),
    test_sand_developed px = true \/ test_vegetation px = true ->
    let r := sample_pixel zeta G px s in
    fst r = None /\
    water (snd r) = water s /\ u (snd r) = u s /\ v (snd r) = v s /\
    sum_water_rrs (snd r) = sum_water_rrs s /\
    (test_sand_developed px = true ->
     sum_SD (snd r) = (sum_SD s ++ [py_sum (slice px 5 7)])%list /\
     b (snd r) = (b s + 1)%nat /\ sum_veg (snd r) = sum_veg s) /\
    (test_sand_developed px = false -> shadow_filter px = false ->
     sum_veg (snd r) = sum_veg s /\ sum_veg2 (snd r) = sum_veg2 s /\
     dead_veg (snd r) = dead_veg s /\ t (snd r) = t s).
Proof.
  intros px s H r. subst r. unfold sample_pixel.
  destruct (test_sand_developed px) eqn:T0.
  - cbn. repeat split; intros; try reflexivity; discriminate.
  - destruct H as [H | H]; [discriminate H |]. rewrite H.
    unfold body_vegetation, then_, enter, assign, skip.
    destruct (shadow_filter px); cbn;
      repeat split; intros; try reflexivity; discriminate.
Qed.

End LandSampleFacts.

Lemma land_pixels_leave_the_water_table_alone_witness :
  fst (Sampler.sample_pixel 0.5 1.56 Sampler.sand_and_vegetation
         (Sampler.init 1)) = None.
Proof.
  exact (proj1 (land_pixels_leave_the_water_table_alone 0.5 1.56
                  Sampler.sand_and_vegetation (Sampler.init 1)
                  (or_introl eq_refl))).
Defined.
